(** * MyLogger: the column-aligned formatter and the logger assembly

    A shallow embedding of [logger.py]: the [MyFormatter] class and the
    [setup_logger] function, together with the part of Python's [logging],
    [time] and [os] modules that the program calls. *)

From Stdlib Require Import ZArith Lia Ascii String.
From stdpp Require Import base decidable option list strings pretty gmap.

Local Open Scope string_scope.
Local Open Scope list_scope.
Local Open Scope Z_scope.

(** ** Python values, exceptions and results *)

(** The exceptions that the calls made by the program can raise. *)
Inductive exn : Type :=
  | ValueError
  | TypeError
  | OverflowError
  | OSError (errno_name : string)
  | OtherException (class_name : string).

(** The outcome of a call that does not touch the process state: a value, or
    a raised exception. *)
Inductive result (A : Type) : Type :=
  | Ok (a : A)
  | Raise (e : exn).
Arguments Ok {A} a.
Arguments Raise {A} e.

#[global] Instance result_ret : MRet result := fun _ a => Ok a.
#[global] Instance result_bind : MBind result := fun _ _ f m =>
  match m with
  | Ok a => f a
  | Raise e => Raise e
  end.

(** The objects a caller may pass as a log message or as a format argument.
    [PyObject] stands for an instance of any other class: what matters to the
    program is only what its [__str__] returns (or raises). *)
Inductive pyobj : Type :=
  | PyStr (s : string)
  | PyInt (z : Z)
  | PyBool (b : bool)
  | PyNone
  | PyObject (dunder_str : result string).

(** [str(o)] *)
Definition py_str (o : pyobj) : result string :=
  match o with
  | PyStr s => Ok s
  | PyInt z => Ok (pretty z)
  | PyBool true => Ok "True"
  | PyBool false => Ok "False"
  | PyNone => Ok "None"
  | PyObject r => r
  end.

(** ** Strings *)

Fixpoint spaces (n : nat) : string :=
  match n with
  | O => ""
  | S n' => String " " (spaces n')
  end.

(** [format(s, "<width")]: left-justify, pad with spaces on the right up to
    [width] characters; a longer string is returned unchanged. *)
Definition ljust (width : nat) (s : string) : string :=
  s +:+ spaces (width - String.length s).

(** [c in s] for a single character [c]. *)
Fixpoint has_char (c : ascii) (s : string) : bool :=
  match s with
  | "" => false
  | String c' s' => Ascii.eqb c c' || has_char c s'
  end.

(** [sep.join(fields)] *)
Fixpoint join (sep : string) (fields : list string) : string :=
  match fields with
  | [] => ""
  | [f] => f
  | f :: rest => f +:+ sep +:+ join sep rest
  end.

(** ** Broken-down time and [time.strftime] *)

Record struct_time : Type := {
  tm_year : Z;
  tm_mon : Z;
  tm_mday : Z;
  tm_hour : Z;
  tm_min : Z;
  tm_sec : Z
}.

(** The ranges [time.strftime] accepts; outside them it raises [ValueError].
    Every value produced by [time.localtime] lies inside. *)
Definition tm_in_range (t : struct_time) : bool :=
  bool_decide (1 <= tm_mon t <= 12) && bool_decide (1 <= tm_mday t <= 31) &&
  bool_decide (0 <= tm_hour t <= 23) && bool_decide (0 <= tm_min t <= 59) &&
  bool_decide (0 <= tm_sec t <= 61).

(** C's ["%02d"]. *)
Definition zfill2 (n : Z) : string :=
  let s := pretty n in
  if bool_decide (String.length s < 2)%nat then "0" +:+ s else s.

(** One conversion specification; the program uses [%Y %m %d %H %M %S]. An
    unknown conversion is copied to the output. *)
Definition directive (d : ascii) (t : struct_time) : string :=
  if Ascii.eqb d "Y" then pretty (tm_year t)
  else if Ascii.eqb d "m" then zfill2 (tm_mon t)
  else if Ascii.eqb d "d" then zfill2 (tm_mday t)
  else if Ascii.eqb d "H" then zfill2 (tm_hour t)
  else if Ascii.eqb d "M" then zfill2 (tm_min t)
  else if Ascii.eqb d "S" then zfill2 (tm_sec t)
  else if Ascii.eqb d "%" then "%"
  else String "%" (String d "").

Fixpoint strftime_go (fmt : string) (t : struct_time) : string :=
  match fmt with
  | "" => ""
  | String c rest =>
      if Ascii.eqb c "%" then
        match rest with
        | String d rest' => directive d t +:+ strftime_go rest' t
        | "" => "%"
        end
      else String c (strftime_go rest t)
  end.

Definition strftime (fmt : string) (t : struct_time) : result string :=
  if tm_in_range t then Ok (strftime_go fmt t) else Raise ValueError.

(** ** The platform

    What the interpreter and the operating system decide, not the program:
    the clock representation and its conversion to local time, the [%]
    operator on strings, and the file system. *)
Class Platform : Type := {
  (** the type of [record.created], seconds since the epoch *)
  instant : Type;
  (** [time.localtime], the default [Formatter.converter] *)
  converter : instant -> result struct_time;
  (** [msg % args] *)
  str_mod : string -> list pyobj -> result string;
  filesystem : Type;
  (** [os.path.exists] *)
  os_path_exists : string -> filesystem -> bool;
  (** [os.makedirs(path, exist_ok=True)]: the exception raised, if any, and
      the file system it leaves *)
  os_makedirs : string -> filesystem -> option exn * filesystem;
  (** [open(path, "a", encoding="utf-8")] *)
  open_append : string -> filesystem -> option exn * filesystem
}.

(** ** Log records *)

Record LogRecord {platform : Platform} : Type := {
  created : instant;
  levelno : Z;
  levelname : string;
  pathname : string;
  lineno : Z;
  msg : pyobj;
  args : list pyobj
}.

(** [logging.DEBUG] ... [logging.CRITICAL] *)
Definition NOTSET : Z := 0.
Definition DEBUG : Z := 10.
Definition INFO : Z := 20.
Definition WARNING : Z := 30.
Definition ERROR : Z := 40.
Definition CRITICAL : Z := 50.

Section Formatter.
Context {platform : Platform}.

(** [LogRecord.getMessage] *)
Definition getMessage (record : LogRecord) : result string :=
  m ← py_str (msg record);
  match args record with
  | [] => Ok m
  | _ :: _ => str_mod m (args record)
  end.

(** [logging.Formatter.formatTime] with a [datefmt] given. *)
Definition formatTime (record : LogRecord) (datefmt : string) : result string :=
  ct ← converter (created record);
  strftime datefmt ct.

(** ** [class MyFormatter] *)

Definition LEVEL_WIDTH : nat := 8.

Definition ESC : ascii := "027"%char.
Definition GREY : string := String ESC "[38;20m".
Definition GREEN : string := String ESC "[32;20m".
Definition YELLOW : string := String ESC "[33;20m".
Definition RED : string := String ESC "[31;20m".
Definition BLUE : string := String ESC "[34;20m".
Definition RESET : string := String ESC "[0m".

Record MyFormatter : Type := {
  use_color : bool;
  datefmt : string
}.

(** [MyFormatter.__init__] *)
Definition MyFormatter_init (use_color : bool) : MyFormatter :=
  {| use_color := use_color; datefmt := "%Y-%m-%d %H:%M:%S" |}.

(** The locals of [MyFormatter.format]. *)
Definition level_str (record : LogRecord) : string :=
  let level_raw := levelname record in
  ljust LEVEL_WIDTH level_raw.

Definition loc_str (record : LogRecord) : string :=
  pathname record +:+ ":" +:+ pretty (lineno record).

Definition main_color (record : LogRecord) : string :=
  if bool_decide (levelno record = WARNING) then YELLOW
  else if bool_decide (levelno record >= ERROR) then RED
  else GREY.

(** [MyFormatter.format] *)
Definition format (self : MyFormatter) (record : LogRecord) : result string :=
  timestamp ← formatTime record (datefmt self);
  if use_color self then
    let date_field := GREEN +:+ timestamp +:+ RESET in
    let level_field := main_color record +:+ level_str record +:+ RESET in
    let loc_field := BLUE +:+ loc_str record +:+ RESET in
    m ← getMessage record;
    let msg_field := main_color record +:+ m +:+ RESET in
    Ok (date_field +:+ " | " +:+ level_field +:+ " | " +:+ loc_field +:+ " | " +:+ msg_field)
  else
    let date_field := timestamp in
    let level_field := level_str record in
    let loc_field := loc_str record in
    msg_field ← getMessage record;
    Ok (date_field +:+ " | " +:+ level_field +:+ " | " +:+ loc_field +:+ " | " +:+ msg_field).

End Formatter.

(** ** The logging facility: handlers, loggers and the process state *)

(** Where a handler writes: [sys.stdout], or a file opened by name. *)
Inductive stream : Type :=
  | Stdout
  | FileStream (path mode encoding : string).

#[global] Instance stream_eq_dec : EqDecision stream.
Proof. solve_decision. Defined.

Record Handler : Type := {
  h_stream : stream;
  h_level : Z;
  h_formatter : option MyFormatter
}.

Record Logger : Type := {
  l_level : Z;
  l_handlers : list Handler;
  l_propagate : bool
}.

(** [Logger(name)] as [logging.getLogger] creates it. *)
Definition Logger_init : Logger :=
  {| l_level := NOTSET; l_handlers := []; l_propagate := true |}.

Section Assembly.
Context {platform : Platform}.

(** The state of the process that the program reads or writes: the file
    system, the root logger, the dictionary of named loggers kept by
    [logging.Logger.manager], and the text written to each stream so far. *)
Record world : Type := {
  fs : filesystem;
  root : Logger;
  loggerDict : gmap string Logger;
  output : list (stream * string)
}.

Definition set_fs (f : filesystem) (w : world) : world :=
  {| fs := f; root := root w; loggerDict := loggerDict w; output := output w |}.

Definition set_loggerDict (d : gmap string Logger) (w : world) : world :=
  {| fs := fs w; root := root w; loggerDict := d; output := output w |}.

Definition write (s : stream) (text : string) (w : world) : world :=
  {| fs := fs w; root := root w; loggerDict := loggerDict w;
     output := output w ++ [(s, text)] |}.

(** A call that may change the process state and may raise: the state it
    leaves is kept in both cases. *)
Definition M (A : Type) : Type := world -> result A * world.

#[global] Instance M_ret : MRet M := fun _ a w => (Ok a, w).
#[global] Instance M_bind : MBind M := fun _ _ f m w =>
  match m w with
  | (Ok a, w') => f a w'
  | (Raise e, w') => (Raise e, w')
  end.

(** Lifting an operating-system call on the file system. *)
Definition os_call (op : filesystem -> option exn * filesystem) : M () :=
  fun w =>
    match op (fs w) with
    | (None, f) => (Ok (), set_fs f w)
    | (Some e, f) => (Raise e, set_fs f w)
    end.

Definition path_exists (path : string) : M bool :=
  fun w => (Ok (os_path_exists path (fs w)), w).

Definition makedirs (path : string) : M () := os_call (os_makedirs path).

Fixpoint endswith_sep (s : string) : bool :=
  match s with
  | "" => false
  | String c "" => Ascii.eqb c "/"
  | String _ s' => endswith_sep s'
  end.

Definition startswith_sep (s : string) : bool :=
  match s with
  | String c _ => Ascii.eqb c "/"
  | "" => false
  end.

(** [os.path.join(a, b)] *)
Definition os_path_join (a b : string) : string :=
  if startswith_sep b then b
  else if bool_decide (a = "") || endswith_sep a then a +:+ b
  else a +:+ "/" +:+ b.

(** The logger a name denotes: the one in the dictionary, or the one
    [getLogger] would create. *)
Definition logger_of (name : string) (w : world) : Logger :=
  default Logger_init (loggerDict w !! name).

Definition update_logger (name : string) (f : Logger -> Logger) : M () :=
  fun w => (Ok (), set_loggerDict (<[name := f (logger_of name w)]> (loggerDict w)) w).

(** [logging.getLogger(name)]; a logger is referred to by its name. *)
Definition getLogger (name : string) : M string :=
  fun w =>
    match loggerDict w !! name with
    | Some _ => (Ok name, w)
    | None => (Ok name, set_loggerDict (<[name := Logger_init]> (loggerDict w)) w)
    end.

(** [Logger.setLevel] *)
Definition Logger_setLevel (logger : string) (level : Z) : M () :=
  update_logger logger (fun l =>
    {| l_level := level; l_handlers := l_handlers l; l_propagate := l_propagate l |}).

(** [Logger.hasHandlers]: the logger's own handlers, then those of its
    ancestors as long as [propagate] is set. The parent of a top-level
    logger is the root logger. *)
Definition has_handlers (w : world) (l : Logger) : bool :=
  match l_handlers l with
  | _ :: _ => true
  | [] =>
      if l_propagate l then
        match l_handlers (root w) with
        | _ :: _ => true
        | [] => false
        end
      else false
  end.

Definition hasHandlers (logger : string) : M bool :=
  fun w => (Ok (has_handlers w (logger_of logger w)), w).

(** [Logger.addHandler] for a handler that is not yet attached. *)
Definition addHandler (logger : string) (hdlr : Handler) : M () :=
  update_logger logger (fun l =>
    {| l_level := l_level l; l_handlers := l_handlers l ++ [hdlr];
       l_propagate := l_propagate l |}).

(** [logging.StreamHandler(stream)] *)
Definition StreamHandler (s : stream) : Handler :=
  {| h_stream := s; h_level := NOTSET; h_formatter := None |}.

(** [logging.FileHandler(filename, encoding=...)]: the file is opened for
    appending when the handler is built. *)
Definition FileHandler (filename encoding : string) : M Handler :=
  os_call (open_append filename);;
  mret (StreamHandler (FileStream filename "a" encoding)).

(** [Handler.setLevel] and [Handler.setFormatter] *)
Definition Handler_setLevel (level : Z) (h : Handler) : Handler :=
  {| h_stream := h_stream h; h_level := level; h_formatter := h_formatter h |}.

Definition setFormatter (fmt : MyFormatter) (h : Handler) : Handler :=
  {| h_stream := h_stream h; h_level := h_level h; h_formatter := Some fmt |}.

(** ** [setup_logger] *)

Definition setup_logger (log_folder : string) : M string :=
  ex ← path_exists log_folder;
  (if negb ex then makedirs log_folder else mret ());;
  let log_file_path := os_path_join log_folder "log.txt" in
  logger ← getLogger "AppLogger";
  Logger_setLevel logger DEBUG;;
  configured ← hasHandlers logger;
  if (configured : bool) then mret logger
  else
    let stream_handler := StreamHandler Stdout in
    let stream_handler := Handler_setLevel INFO stream_handler in
    let stream_handler := setFormatter (MyFormatter_init true) stream_handler in
    addHandler logger stream_handler;;
    file_handler ← FileHandler log_file_path "utf-8";
    let file_handler := Handler_setLevel DEBUG file_handler in
    let file_handler := setFormatter (MyFormatter_init false) file_handler in
    addHandler logger file_handler;;
    mret logger.

(** ** Emission *)

(** [Handler.format]: the handler's formatter, or the default one, which
    renders the message alone. *)
Definition Handler_format (h : Handler) (record : LogRecord) : result string :=
  match h_formatter h with
  | Some fmt => format fmt record
  | None => getMessage record
  end.

(** [StreamHandler.emit]: the formatted record and the terminator are written
    to the stream; an exception raised while formatting is handed to
    [handleError] and nothing reaches the stream. *)
Definition emit (h : Handler) (record : LogRecord) (w : world) : world :=
  match Handler_format h record with
  | Ok text => write (h_stream h) (text +:+ String "010"%char "") w
  | Raise _ => w
  end.

Definition handle_all (hs : list Handler) (record : LogRecord) (w : world) : world :=
  fold_left (fun w h =>
    if bool_decide (levelno record >= h_level h) then emit h record w else w) hs w.

(** [Logger.callHandlers] *)
Definition callHandlers (logger : string) (record : LogRecord) (w : world) : world :=
  let l := logger_of logger w in
  let w' := handle_all (l_handlers l) record w in
  if l_propagate l then handle_all (l_handlers (root w)) record w' else w'.

(** [Logger.getEffectiveLevel] *)
Definition getEffectiveLevel (logger : string) (w : world) : Z :=
  let l := logger_of logger w in
  if bool_decide (l_level l = NOTSET) then l_level (root w) else l_level l.

(** [Logger.log] and its per-level shorthands, from the point where the
    record has been made: the record goes to the handlers when its level
    passes the logger's threshold. *)
Definition Logger_handle (logger : string) (record : LogRecord) (w : world) : world :=
  if bool_decide (levelno record >= getEffectiveLevel logger w)
  then callHandlers logger record w
  else w.

(** The text written to one stream, in order. *)
Definition written_to (s : stream) (w : world) : list string :=
  (filter (fun p => p.1 = s) (output w)).*2.

End Assembly.

(** ** A reference platform

    One concrete platform, on which the program can be run inside Rocq: a
    clock in whole seconds converted as [time.gmtime] does, [%] restricted to
    the conversions [%s], [%d] and [%%], and a flat file system in which some
    paths are not writable. *)
Module Reference.

(** Days since 1970-01-01 to a civil date of the Gregorian calendar. *)
Definition civil_from_days (days : Z) : Z * Z * Z :=
  let z := days + 719468 in
  let era := z / 146097 in
  let doe := z - era * 146097 in
  let yoe := (doe - doe / 1460 + doe / 36524 - doe / 146096) / 365 in
  let doy := doe - (365 * yoe + yoe / 4 - yoe / 100) in
  let mp := (5 * doy + 2) / 153 in
  let d := doy - (153 * mp + 2) / 5 + 1 in
  let m := if bool_decide (mp < 10) then mp + 3 else mp - 9 in
  let y := yoe + era * 400 + (if bool_decide (m <= 2) then 1 else 0) in
  (y, m, d).

Definition gmtime (seconds : Z) : result struct_time :=
  if bool_decide (- 2 ^ 55 <= seconds < 2 ^ 55) then
    let '(y, m, d) := civil_from_days (seconds / 86400) in
    let rem := seconds mod 86400 in
    Ok {| tm_year := y; tm_mon := m; tm_mday := d;
          tm_hour := rem / 3600; tm_min := rem mod 3600 / 60; tm_sec := rem mod 60 |}
  else Raise OverflowError.

Fixpoint percent (fmt : string) (args : list pyobj) : result string :=
  match fmt with
  | "" =>
      match args with
      | [] => Ok ""
      | _ :: _ => Raise TypeError
      end
  | String c rest =>
      if Ascii.eqb c "%" then
        match rest with
        | String d rest' =>
            if Ascii.eqb d "%" then
              r ← percent rest' args; Ok (String "%" r)
            else if Ascii.eqb d "s" then
              match args with
              | a :: args' => s ← py_str a; r ← percent rest' args'; Ok (s +:+ r)
              | [] => Raise TypeError
              end
            else if Ascii.eqb d "d" then
              match args with
              | PyInt z :: args' => r ← percent rest' args'; Ok (pretty z +:+ r)
              | _ => Raise TypeError
              end
            else Raise ValueError
        | "" => Raise ValueError
        end
      else r ← percent rest args; Ok (String c r)
  end.

Record simple_fs : Type := {
  dirs : gset string;
  files : gset string;
  unwritable : gset string
}.

Definition exists_ (path : string) (f : simple_fs) : bool :=
  bool_decide (path ∈ dirs f ∪ files f).

Definition mkdir (path : string) (f : simple_fs) : option exn * simple_fs :=
  if bool_decide (path ∈ dirs f) then (None, f)
  else if bool_decide (path ∈ unwritable f ∨ path ∈ files f ∨ path = "")
  then (Some (OSError "EACCES"), f)
  else (None, {| dirs := {[path]} ∪ dirs f; files := files f; unwritable := unwritable f |}).

Definition append_open (path : string) (f : simple_fs) : option exn * simple_fs :=
  if bool_decide (path ∈ unwritable f) then (Some (OSError "EACCES"), f)
  else if bool_decide (path ∈ dirs f) then (Some (OSError "EISDIR"), f)
  else (None, {| dirs := dirs f; files := {[path]} ∪ files f; unwritable := unwritable f |}).

#[export] Instance platform : Platform := {|
  instant := Z;
  converter := gmtime;
  str_mod := percent;
  filesystem := simple_fs;
  os_path_exists := exists_;
  os_makedirs := mkdir;
  open_append := append_open
|}.

(** A process that has not touched [logging] yet, in an empty directory. *)
Definition fresh : world :=
  {| fs := {| dirs := ∅; files := ∅; unwritable := {["/proc/logs"]} |};
     root := {| l_level := WARNING; l_handlers := []; l_propagate := true |};
     loggerDict := ∅;
     output := [] |}.

Definition record_at (level : Z) (name : string) (message : string) : LogRecord :=
  {| created := 1793750400 + 3723; levelno := level; levelname := name;
     pathname := "/srv/app/main.py"; lineno := 104;
     msg := PyStr message; args := [] |}.

(** 2026-11-04 01:02:03, the capture time of [record_at]. *)
Definition stamp : struct_time :=
  {| tm_year := 2026; tm_mon := 11; tm_mday := 4;
     tm_hour := 1; tm_min := 2; tm_sec := 3 |}.

Definition info_record : LogRecord := record_at INFO "INFO" "Process started.".

Definition warning_record : LogRecord :=
  record_at WARNING "WARNING" "Configuration file not found.".

Definition debug_record : LogRecord := record_at DEBUG "DEBUG" "cache miss".

(** A record made at the epoch, with any message object and arguments. *)
Definition job_record (level : Z) (name : string) (message : pyobj)
    (arguments : list pyobj) : LogRecord :=
  {| created := 0; levelno := level; levelname := name;
     pathname := "job.py"; lineno := 7; msg := message; args := arguments |}.

(** A message that carries escape sequences of its own. *)
Definition tinted_record : LogRecord :=
  record_at ERROR "ERROR" (RED +:+ "disk full" +:+ RESET).

(** The file system after [setup_logger "logs"] in [fresh]. *)
Definition with_logs : @filesystem platform :=
  {| dirs := {["logs"]}; files := {["logs/log.txt"]}; unwritable := {["/proc/logs"]} |}.

End Reference.

(** ** Vocabulary of the specification *)

Definition is_digit (c : ascii) : bool :=
  bool_decide (48 <= nat_of_ascii c <= 57)%nat.

Definition is_upper (c : ascii) : bool :=
  bool_decide (65 <= nat_of_ascii c <= 90)%nat.

(** A date pattern such as [YYYY-MM-DD HH:MM:SS]: a capital letter stands for
    one decimal digit, any other character for itself. *)
Fixpoint date_matches (pattern s : string) : bool :=
  match pattern, s with
  | "", "" => true
  | String p pattern', String c s' =>
      (if is_upper p then is_digit c else Ascii.eqb p c) && date_matches pattern' s'
  | _, _ => false
  end.

(** The text [field] occupies [line] from the character offset [offset] on. *)
Definition field_at (offset : nat) (field line : string) : bool :=
  String.eqb (substring offset (String.length field) line) field.

(** [s.endswith("\n")] *)
Fixpoint endswith_newline (s : string) : bool :=
  match s with
  | "" => false
  | String c "" => Ascii.eqb c "010"
  | String _ s' => endswith_newline s'
  end.

Definition startswith_bracket (s : string) : bool :=
  match s with
  | String c _ => Ascii.eqb c "["
  | "" => false
  end.

(** An ANSI escape sequence begins with the control sequence introducer,
    the escape character followed by an opening bracket. *)
Fixpoint has_ansi_escape (s : string) : bool :=
  match s with
  | "" => false
  | String c s' => (Ascii.eqb c ESC && startswith_bracket s') || has_ansi_escape s'
  end.

Section Vocabulary.
Context {platform : Platform}.

(** What [formatTime] returns for the formatter's date format. *)
Definition timestamp_text (ct : struct_time) : string :=
  strftime_go (datefmt (MyFormatter_init true)) ct.

(** The record's capture time, as the formatter's converter reads it. *)
Definition local_time (record : LogRecord) (ct : struct_time) : Prop :=
  converter (created record) = Ok ct ∧ tm_in_range ct = true.

(** The logger's configuration as [setup_logger] builds it. *)
Definition console_sink : Handler :=
  {| h_stream := Stdout; h_level := INFO; h_formatter := Some (MyFormatter_init true) |}.

Definition file_sink (log_folder : string) : Handler :=
  {| h_stream := FileStream (os_path_join log_folder "log.txt") "a" "utf-8";
     h_level := DEBUG; h_formatter := Some (MyFormatter_init false) |}.

(** The directory step of [setup_logger]: nothing when the path exists,
    [os.makedirs] otherwise. *)
Definition ensure_dir (log_folder : string) (f : filesystem) : option exn * filesystem :=
  if os_path_exists log_folder f then (None, f) else os_makedirs log_folder f.

(** The process state [setup_logger] leaves when it returns: the file system
    [f], and the application logger at threshold DEBUG with the handlers
    [hs]; the rest is as in [w]. *)
Definition assembled (f : filesystem) (hs : list Handler) (w : world) : world :=
  {| fs := f; root := root w;
     loggerDict :=
       <["AppLogger" := {| l_level := DEBUG; l_handlers := hs;
                            l_propagate := l_propagate (logger_of "AppLogger" w) |}]>
         (loggerDict w);
     output := output w |}.

(** One line on a stream: the formatted record and the terminator. *)
Definition line (s : stream) (fmt : MyFormatter) (record : LogRecord)
    (ct : struct_time) (m : string) : stream * string :=
  let text :=
    if use_color fmt then
      join " | " [GREEN +:+ timestamp_text ct +:+ RESET;
                  main_color record +:+ level_str record +:+ RESET;
                  BLUE +:+ loc_str record +:+ RESET;
                  main_color record +:+ m +:+ RESET]
    else join " | " [timestamp_text ct; level_str record; loc_str record; m] in
  (s, text +:+ String "010"%char "").

End Vocabulary.

(** ** The emission methods and the script's entry point *)

(** [logging.getLevelName] *)
Definition getLevelName (level : Z) : string :=
  if bool_decide (level = CRITICAL) then "CRITICAL"
  else if bool_decide (level = ERROR) then "ERROR"
  else if bool_decide (level = WARNING) then "WARNING"
  else if bool_decide (level = INFO) then "INFO"
  else if bool_decide (level = DEBUG) then "DEBUG"
  else if bool_decide (level = NOTSET) then "NOTSET"
  else "Level " +:+ pretty level.

(** The outcome of [a / b] on integers: the quotient, or
    [ZeroDivisionError] with its message. *)
Inductive quotient : Type :=
  | Quotient (numerator denominator : Z)
  | ZeroDivisionError (message : string).

Definition truediv (a b : Z) : quotient :=
  if bool_decide (b = 0) then ZeroDivisionError "division by zero" else Quotient a b.

Section Script.
Context {platform : Platform}.

(** [Logger.log(level, msg)] called at line [line] of the file [path] when
    the clock reads [now]: the record is made for the call site and handed
    to the logger. *)
Definition Logger_log (logger : string) (level : Z) (message : pyobj)
    (path : string) (line : Z) (now : instant) : M () :=
  fun w =>
    (Ok (),
     Logger_handle logger
       {| created := now; levelno := level; levelname := getLevelName level;
          pathname := path; lineno := line; msg := message; args := [] |} w).

Definition Logger_info (logger : string) := Logger_log logger INFO.
Definition Logger_warning (logger : string) := Logger_log logger WARNING.
Definition Logger_error (logger : string) := Logger_log logger ERROR.

(** The block run when the file is executed as a script, [file] being its
    path and [t1] ... [t4] the clock readings at the four emissions. *)
Definition main (file : string) (t1 t2 t3 t4 : instant) : M () :=
  logger ← setup_logger "logs";
  Logger_info logger (PyStr "Process started.") file 104 t1;;
  Logger_warning logger (PyStr "Configuration file not found.") file 107 t2;;
  match truediv 100 0 with
  | Quotient _ _ => mret ()
  | ZeroDivisionError e =>
      Logger_error logger (PyStr ("Calculation failed: " +:+ e)) file 112 t3
  end;;
  Logger_info logger (PyStr "Task finished.") file 114 t4.

(** The state after more text has been written. *)
Definition append_output (texts : list (stream * string)) (w : world) : world :=
  {| fs := fs w; root := root w; loggerDict := loggerDict w;
     output := output w ++ texts |}.

(** The record [Logger_log] makes. *)
Definition record_of (level : Z) (message : string) (path : string) (line : Z)
    (now : instant) : LogRecord :=
  {| created := now; levelno := level; levelname := getLevelName level;
     pathname := path; lineno := line; msg := PyStr message; args := [] |}.

(** The two lines a record of level INFO or above leaves: on the console,
    then in the file. *)
Definition both_lines (log_folder : string) (record : LogRecord) (ct : struct_time)
    (m : string) : list (stream * string) :=
  [line Stdout (MyFormatter_init true) record ct m;
   line (h_stream (file_sink log_folder)) (MyFormatter_init false) record ct m].

(** The text [format] returns for a record whose capture time reads [ct]
    and whose message renders as [m]. *)
Definition rendered (fmt : MyFormatter) (record : LogRecord) (ct : struct_time)
    (m : string) : string :=
  if use_color fmt then
    join " | " [GREEN +:+ timestamp_text ct +:+ RESET;
                main_color record +:+ level_str record +:+ RESET;
                BLUE +:+ loc_str record +:+ RESET;
                main_color record +:+ m +:+ RESET]
  else join " | " [timestamp_text ct; level_str record; loc_str record; m].

(** The loggers below the application logger in the hierarchy of names. *)
Definition below_app_logger (name : string) : bool :=
  String.prefix "AppLogger." name.

(** The clock reading [now] converts to the broken-down time [ct]. *)
Definition clock_reads (now : instant) (ct : struct_time) : Prop :=
  converter now = Ok ct ∧ tm_in_range ct = true.

End Script.

(** Removing the colour codes from a line: an escape character and what
    follows it, up to the first [m]. *)
Fixpoint strip_go (inside : bool) (s : string) : string :=
  match s with
  | "" => ""
  | String c s' =>
      if inside then strip_go (negb (Ascii.eqb c "m")) s'
      else if Ascii.eqb c ESC then strip_go true s'
      else String c (strip_go false s')
  end.

Definition strip_colors (s : string) : string := strip_go false s.

(** ** Checks on concrete inputs *)

Example format_info_plain :
  format (MyFormatter_init false) Reference.info_record =
  Ok "2026-11-04 01:02:03 | INFO     | /srv/app/main.py:104 | Process started.".
Proof. reflexivity. Qed.

Example format_warning_plain :
  format (MyFormatter_init false) Reference.warning_record =
  Ok "2026-11-04 01:02:03 | WARNING  | /srv/app/main.py:104 | Configuration file not found.".
Proof. reflexivity. Qed.

Example format_non_string_message :
  format (MyFormatter_init false)
    (Reference.job_record CRITICAL "CRITICAL" (PyInt (-3)) []) =
  Ok "1970-01-01 00:00:00 | CRITICAL | job.py:7 | -3".
Proof. reflexivity. Qed.

Example format_with_arguments :
  format (MyFormatter_init false)
    (Reference.job_record INFO "INFO" (PyStr "%d of %s") [PyInt 2; PyNone]) =
  Ok "1970-01-01 00:00:00 | INFO     | job.py:7 | 2 of None".
Proof. reflexivity. Qed.

Example format_mismatched_arguments :
  format (MyFormatter_init false)
    (Reference.job_record INFO "INFO" (PyStr "%d items") [PyStr "three"]) =
  Raise TypeError.
Proof. reflexivity. Qed.

Example setup_in_fresh_process :
  setup_logger "logs" Reference.fresh =
  (Ok "AppLogger", assembled Reference.with_logs [console_sink; file_sink "logs"] Reference.fresh).
Proof. reflexivity. Qed.

Example debug_goes_to_the_file_only :
  output (Logger_handle "AppLogger" Reference.debug_record
            (assembled Reference.with_logs [console_sink; file_sink "logs"] Reference.fresh)) =
  [(FileStream "logs/log.txt" "a" "utf-8",
    "2026-11-04 01:02:03 | DEBUG    | /srv/app/main.py:104 | cache miss"
    +:+ String "010"%char "")].
Proof. reflexivity. Qed.

Example setup_in_unwritable_place :
  (setup_logger "/proc/logs" Reference.fresh).1 = Raise (OSError "EACCES").
Proof. reflexivity. Qed.

Example gmtime_epoch :
  Reference.gmtime 0 =
  Ok {| tm_year := 1970; tm_mon := 1; tm_mday := 1; tm_hour := 0; tm_min := 0; tm_sec := 0 |}.
Proof. reflexivity. Qed.

(** ** Strings: lengths and characters *)

Lemma length_append (s t : string) :
  String.length (s +:+ t) = (String.length s + String.length t)%nat.
Proof. induction s as [|c s IH]; simpl; [done | by rewrite IH]. Qed.

Lemma append_cons (c : ascii) (s t : string) :
  String c s +:+ t = String c (s +:+ t).
Proof. reflexivity. Qed.

Lemma append_empty_r (s : string) : s +:+ "" = s.
Proof. induction s as [|c s IH]; [done | by rewrite append_cons, IH]. Qed.

Lemma length_spaces (n : nat) : String.length (spaces n) = n.
Proof. induction n as [|n IH]; simpl; [done | by rewrite IH]. Qed.

Lemma ljust_length (width : nat) (s : string) :
  String.length (ljust width s) = (width `max` String.length s)%nat.
Proof. unfold ljust. rewrite length_append, length_spaces. lia. Qed.

Lemma ljust_fits (width : nat) (s : string) :
  (String.length s ≤ width)%nat → String.length (ljust width s) = width.
Proof. intros. rewrite ljust_length. lia. Qed.

Lemma has_char_append (c : ascii) (s t : string) :
  has_char c (s +:+ t) = has_char c s || has_char c t.
Proof.
  induction s as [|c' s IH]; simpl; [done|].
  rewrite IH. by destruct (Ascii.eqb c c').
Qed.

Lemma has_char_spaces (c : ascii) (n : nat) :
  c ≠ " "%char → has_char c (spaces n) = false.
Proof.
  intros Hc. induction n as [|n IH]; simpl; [done|].
  rewrite IH, orb_false_r. by apply Ascii.eqb_neq.
Qed.

Lemma has_ansi_escape_has_char (s : string) :
  has_ansi_escape s = true → has_char ESC s = true.
Proof.
  induction s as [|c s IH]; cbn [has_ansi_escape has_char]; [done|].
  rewrite (Ascii.eqb_sym ESC c).
  destruct (Ascii.eqb c ESC); cbn [andb orb]; [done|]. exact IH.
Qed.

Lemma date_matches_append (p1 p2 s1 s2 : string) :
  date_matches p1 s1 = true → date_matches p2 s2 = true →
  date_matches (p1 +:+ p2) (s1 +:+ s2) = true.
Proof.
  revert s1. induction p1 as [|p p1 IH]; intros [|c s1]; simpl; try done.
  intros [Hc Hrest]%andb_true_iff Hp2. rewrite Hc. simpl. by apply IH.
Qed.

Lemma date_matches_length (p s : string) :
  date_matches p s = true → String.length s = String.length p.
Proof.
  revert s. induction p as [|c p IH]; intros [|c' s]; simpl; try done.
  intros [_ Hrest]%andb_true_iff. f_equal. by apply IH.
Qed.

(** ** Decimal numerals *)

Lemma pretty_N_char_not_esc (x : N) : pretty_N_char x ≠ ESC.
Proof. unfold pretty_N_char. by repeat case_match. Qed.

Lemma pretty_N_go_no_esc (x : N) (s : string) :
  has_char ESC s = false → has_char ESC (pretty_N_go x s) = false.
Proof.
  revert s. induction (N.lt_wf_0 x) as [x _ IH]; intros s Hs.
  destruct (decide (x = 0)%N) as [->|Hx]; [by rewrite pretty_N_go_0|].
  rewrite pretty_N_go_step by lia.
  apply IH; [apply N.div_lt; lia|].
  cbn [has_char]. rewrite Hs, orb_false_r.
  apply Ascii.eqb_neq. intros Heq. by apply (pretty_N_char_not_esc (x `mod` 10)).
Qed.

Lemma pretty_N_no_esc (x : N) : has_char ESC (pretty x) = false.
Proof.
  unfold pretty, pretty_N. case_decide; [done|]. by apply pretty_N_go_no_esc.
Qed.

Lemma pretty_Z_no_esc (z : Z) : has_char ESC (pretty z) = false.
Proof.
  destruct z as [|p|p]; [done| |].
  - apply (pretty_N_no_esc (N.pos p)).
  - change (pretty (Z.neg p)) with ("-" +:+ pretty (N.pos p)).
    rewrite has_char_append, pretty_N_no_esc. done.
Qed.

Lemma zfill2_no_esc (n : Z) : has_char ESC (zfill2 n) = false.
Proof.
  unfold zfill2. case_bool_decide; [|apply pretty_Z_no_esc].
  rewrite has_char_append, pretty_Z_no_esc. done.
Qed.

(** Checking a property of a numeral on every integer of an interval. *)
Lemma for_all_between (P : Z → bool) (lo len n : Z) :
  forallb P (seqZ lo len) = true → lo ≤ n < lo + len → P n = true.
Proof.
  intros Hall Hn. rewrite forallb_forall in Hall. apply Hall.
  apply list_elem_of_In, elem_of_seqZ. lia.
Qed.

Lemma zfill2_two_digits (n : Z) :
  0 ≤ n ≤ 99 → date_matches "DD" (zfill2 n) = true.
Proof.
  intros Hn. apply (for_all_between (λ n, date_matches "DD" (zfill2 n)) 0 100); [|lia].
  vm_compute. reflexivity.
Qed.

Lemma pretty_four_digits (y : Z) :
  1000 ≤ y ≤ 9999 → date_matches "YYYY" (pretty y) = true.
Proof.
  intros Hy. apply (for_all_between (λ y, date_matches "YYYY" (pretty y)) 1000 9000); [|lia].
  vm_compute. reflexivity.
Qed.

(** ** [strftime] on the formatter's date format *)

Lemma strftime_go_datefmt (ct : struct_time) :
  strftime_go "%Y-%m-%d %H:%M:%S" ct =
  pretty (tm_year ct) +:+ "-" +:+ zfill2 (tm_mon ct) +:+ "-" +:+ zfill2 (tm_mday ct)
  +:+ " " +:+ zfill2 (tm_hour ct) +:+ ":" +:+ zfill2 (tm_min ct) +:+ ":" +:+ zfill2 (tm_sec ct).
Proof.
  rewrite <- (append_empty_r (zfill2 (tm_sec ct))). reflexivity.
Qed.

Lemma tm_in_range_bounds (ct : struct_time) :
  tm_in_range ct = true →
  1 ≤ tm_mon ct ≤ 12 ∧ 1 ≤ tm_mday ct ≤ 31 ∧ 0 ≤ tm_hour ct ≤ 23 ∧
  0 ≤ tm_min ct ≤ 59 ∧ 0 ≤ tm_sec ct ≤ 61.
Proof.
  unfold tm_in_range. rewrite !andb_true_iff, !bool_decide_eq_true. tauto.
Qed.

Lemma timestamp_shape (ct : struct_time) :
  tm_in_range ct = true → 1000 ≤ tm_year ct ≤ 9999 →
  date_matches "YYYY-MM-DD HH:MM:SS" (strftime_go "%Y-%m-%d %H:%M:%S" ct) = true.
Proof.
  intros (Hmon & Hday & Hhour & Hmin & Hsec)%tm_in_range_bounds Hyear.
  rewrite strftime_go_datefmt.
  change "YYYY-MM-DD HH:MM:SS"
    with ("YYYY" +:+ "-" +:+ "MM" +:+ "-" +:+ "DD" +:+ " " +:+ "HH" +:+ ":" +:+ "MM" +:+ ":" +:+ "SS").
  repeat apply date_matches_append;
    try reflexivity; try (apply pretty_four_digits; lia);
    apply (zfill2_two_digits _); lia.
Qed.

Lemma timestamp_length (ct : struct_time) :
  tm_in_range ct = true → 1000 ≤ tm_year ct ≤ 9999 →
  String.length (strftime_go "%Y-%m-%d %H:%M:%S" ct) = 19%nat.
Proof.
  intros Hrange Hyear.
  by rewrite (date_matches_length _ _ (timestamp_shape ct Hrange Hyear)).
Qed.

Lemma timestamp_no_esc (ct : struct_time) :
  has_char ESC (strftime_go "%Y-%m-%d %H:%M:%S" ct) = false.
Proof.
  rewrite strftime_go_datefmt.
  by rewrite !has_char_append, pretty_Z_no_esc, !zfill2_no_esc.
Qed.

Lemma substring_skip (pre s : string) (n : nat) :
  substring (String.length pre) n (pre +:+ s) = substring 0 n s.
Proof. induction pre as [|c pre IH]; [done | by rewrite append_cons]. Qed.

Lemma substring_prefix (s t : string) :
  substring 0 (String.length s) (s +:+ t) = s.
Proof.
  induction s as [|c s IH]; [by destruct t|].
  rewrite append_cons. simpl. by rewrite IH.
Qed.

Lemma field_at_split (before field after : string) :
  field_at (String.length before) field (before +:+ field +:+ after) = true.
Proof.
  unfold field_at. rewrite substring_skip, substring_prefix. apply String.eqb_refl.
Qed.

Lemma endswith_newline_after_space (before s : string) :
  endswith_newline (before +:+ " " +:+ s) = endswith_newline s.
Proof.
  induction before as [|c before IH]; [by destruct s|].
  rewrite append_cons. cbn [endswith_newline]. rewrite IH.
  by destruct before.
Qed.

Lemma append_assoc (s t u : string) : (s +:+ t) +:+ u = s +:+ t +:+ u.
Proof. induction s as [|c s IH]; [done | by rewrite !append_cons, IH]. Qed.

(** In a line of fields and separators, the fifth piece begins where the
    first four end, and the third where the first two end. *)
Lemma field_at_fifth (k : nat) (a b c d e f : string) :
  k = (String.length a + String.length b + String.length c + String.length d)%nat →
  field_at k e (a +:+ b +:+ c +:+ d +:+ e +:+ f) = true.
Proof.
  intros ->.
  replace (a +:+ b +:+ c +:+ d +:+ e +:+ f) with ((a +:+ b +:+ c +:+ d) +:+ e +:+ f)
    by (by rewrite !append_assoc).
  replace (String.length a + String.length b + String.length c + String.length d)%nat
    with (String.length (a +:+ b +:+ c +:+ d)) by (rewrite !length_append; lia).
  apply field_at_split.
Qed.

Lemma field_at_third (k : nat) (a b c d : string) :
  k = (String.length a + String.length b)%nat →
  field_at k c (a +:+ b +:+ c +:+ d) = true.
Proof.
  intros ->.
  replace (a +:+ b +:+ c +:+ d) with ((a +:+ b) +:+ c +:+ d)
    by (by rewrite !append_assoc).
  rewrite <- length_append. apply field_at_split.
Qed.

Lemma endswith_newline_append (s t : string) :
  t ≠ "" → endswith_newline (s +:+ t) = endswith_newline t.
Proof.
  intros Ht. induction s as [|c s IH]; [done|].
  rewrite append_cons. cbn [endswith_newline]. rewrite IH.
  destruct s; [by destruct t|done].
Qed.

(** ** The formatter *)

Section FormatterFacts.
Context {platform : Platform}.

Lemma formatTime_ok (b : bool) (record : LogRecord) (ct : struct_time) :
  local_time record ct →
  formatTime record (datefmt (MyFormatter_init b)) = Ok (timestamp_text ct).
Proof.
  intros [Hct Hrange]. unfold formatTime, strftime. rewrite Hct. simpl.
  by rewrite Hrange.
Qed.

Lemma format_plain_ok (record : LogRecord) (ct : struct_time) (m : string) :
  local_time record ct → getMessage record = Ok m →
  format (MyFormatter_init false) record =
  Ok (timestamp_text ct +:+ " | " +:+ level_str record +:+ " | " +:+
      loc_str record +:+ " | " +:+ m).
Proof.
  intros Hct Hm. unfold format. rewrite (formatTime_ok _ _ ct Hct). simpl.
  by rewrite Hm.
Qed.

Lemma format_color_ok (record : LogRecord) (ct : struct_time) (m : string) :
  local_time record ct → getMessage record = Ok m →
  format (MyFormatter_init true) record =
  Ok ((GREEN +:+ timestamp_text ct +:+ RESET) +:+ " | " +:+
      (main_color record +:+ level_str record +:+ RESET) +:+ " | " +:+
      (BLUE +:+ loc_str record +:+ RESET) +:+ " | " +:+
      (main_color record +:+ m +:+ RESET)).
Proof.
  intros Hct Hm. unfold format. rewrite (formatTime_ok _ _ ct Hct). simpl.
  by rewrite Hm.
Qed.

Lemma main_color_length (record : LogRecord) :
  String.length (main_color record) = 8%nat.
Proof. unfold main_color. by repeat case_bool_decide. Qed.

Lemma level_str_length (record : LogRecord) :
  (String.length (levelname record) ≤ 8)%nat →
  String.length (level_str record) = 8%nat.
Proof. intros. by apply ljust_fits. Qed.

End FormatterFacts.

(** ** Column alignment *)

Section Alignment.
Context {platform : Platform}.

(** C1. The level name is left-justified and padded with spaces on the right
    to the fixed width 8: the level field is the name followed by spaces
    only, and it is 8 characters long whenever the name has at most 8
    characters (["CRITICAL"] fills it with no padding). Hence, with the
    colour mode off, the location field of any two records whose level names
    have at most 8 characters begins at the same character offset, 33: the
    timestamp takes 19 characters, each separator 3 and the level field 8. *)
Theorem location_offset_plain (r1 r2 : LogRecord) (ct1 ct2 : struct_time) (m1 m2 : string) :
  (String.length (levelname r1) ≤ 8)%nat →
  (String.length (levelname r2) ≤ 8)%nat →
  local_time r1 ct1 → 1000 ≤ tm_year ct1 ≤ 9999 →
  local_time r2 ct2 → 1000 ≤ tm_year ct2 ≤ 9999 →
  getMessage r1 = Ok m1 → getMessage r2 = Ok m2 →
  (∀ r : LogRecord,
     level_str r = levelname r +:+ spaces (8 - String.length (levelname r)) ∧
     String.length (level_str r) = (8 `max` String.length (levelname r))%nat) ∧
  (∀ r : LogRecord, levelname r = "CRITICAL" → level_str r = "CRITICAL") ∧
  String.length (level_str r1) = 8%nat ∧ String.length (level_str r2) = 8%nat ∧
  ∃ out1 out2 offset,
    format (MyFormatter_init false) r1 = Ok out1 ∧
    format (MyFormatter_init false) r2 = Ok out2 ∧
    field_at offset (loc_str r1) out1 = true ∧
    field_at offset (loc_str r2) out2 = true ∧
    field_at (offset - 11) (level_str r1) out1 = true ∧
    field_at (offset - 11) (level_str r2) out2 = true ∧
    offset = 33%nat.
Proof.
  intros Hn1 Hn2 Hct1 Hy1 Hct2 Hy2 Hm1 Hm2.
  split; [|split; [|split; [|split]]].
  - intros r. split; [done|]. apply ljust_length.
  - intros r Hname. unfold level_str. by rewrite Hname.
  - by apply level_str_length.
  - by apply level_str_length.
  - eexists _, _, 33%nat.
    rewrite (format_plain_ok r1 ct1 m1), (format_plain_ok r2 ct2 m2) by done.
    pose proof (timestamp_length ct1 (proj2 Hct1) Hy1) as Hts1.
    pose proof (timestamp_length ct2 (proj2 Hct2) Hy2) as Hts2.
    pose proof (level_str_length r1 Hn1) as Hl1.
    pose proof (level_str_length r2 Hn2) as Hl2.
    unfold timestamp_text in *. simpl datefmt in *.
    repeat split.
    + apply field_at_fifth. rewrite Hts1, Hl1. reflexivity.
    + apply field_at_fifth. rewrite Hts2, Hl2. reflexivity.
    + apply field_at_third. rewrite Hts1. reflexivity.
    + apply field_at_third. rewrite Hts2. reflexivity.
Qed.

(** C10. With the colour mode on, the location field of any two records whose
    level names have at most 8 characters begins at the same character
    offset, 57: the three severity colour codes have the same length, 8, as
    have the codes around the timestamp, and the reset code is fixed. *)
Theorem location_offset_color (r1 r2 : LogRecord) (ct1 ct2 : struct_time) (m1 m2 : string) :
  (String.length (levelname r1) ≤ 8)%nat →
  (String.length (levelname r2) ≤ 8)%nat →
  local_time r1 ct1 → 1000 ≤ tm_year ct1 ≤ 9999 →
  local_time r2 ct2 → 1000 ≤ tm_year ct2 ≤ 9999 →
  getMessage r1 = Ok m1 → getMessage r2 = Ok m2 →
  (String.length GREY = String.length YELLOW ∧ String.length YELLOW = String.length RED) ∧
  String.length (main_color r1) = String.length (main_color r2) ∧
  ∃ out1 out2 offset,
    format (MyFormatter_init true) r1 = Ok out1 ∧
    format (MyFormatter_init true) r2 = Ok out2 ∧
    field_at offset (BLUE +:+ loc_str r1 +:+ RESET) out1 = true ∧
    field_at offset (BLUE +:+ loc_str r2 +:+ RESET) out2 = true ∧
    offset = 57%nat.
Proof.
  intros Hn1 Hn2 Hct1 Hy1 Hct2 Hy2 Hm1 Hm2.
  split; [done|]. split; [by rewrite !main_color_length|].
  eexists _, _, 57%nat.
  rewrite (format_color_ok r1 ct1 m1), (format_color_ok r2 ct2 m2) by done.
  pose proof (timestamp_length ct1 (proj2 Hct1) Hy1) as Hts1.
  pose proof (timestamp_length ct2 (proj2 Hct2) Hy2) as Hts2.
  pose proof (level_str_length r1 Hn1) as Hl1.
  pose proof (level_str_length r2 Hn2) as Hl2.
  unfold timestamp_text in *. simpl datefmt in *.
  repeat split.
  - apply field_at_fifth.
    rewrite !length_append, Hts1, Hl1, main_color_length. reflexivity.
  - apply field_at_fifth.
    rewrite !length_append, Hts2, Hl2, main_color_length. reflexivity.
Qed.

End Alignment.

(** ** Colours and the shape of a line *)

Section Rendering.
Context {platform : Platform}.


(** C3, as amended. With the colour mode off the formatter adds no escape
    character: when the level name, the path and the rendered message of the
    record contain none, the output contains none, hence no ANSI escape
    sequence. *)
Theorem plain_output_no_escape (record : LogRecord) (ct : struct_time) (m : string) :
  local_time record ct → getMessage record = Ok m →
  has_char ESC (levelname record) = false →
  has_char ESC (pathname record) = false →
  has_char ESC m = false →
  ∃ out, format (MyFormatter_init false) record = Ok out ∧
         has_char ESC out = false ∧ has_ansi_escape out = false.
Proof.
  intros Hct Hm Hname Hpath Hmsg. eexists. split; [by apply format_plain_ok|].
  assert (has_char ESC (timestamp_text ct +:+ " | " +:+ level_str record +:+ " | " +:+
                        loc_str record +:+ " | " +:+ m) = false) as Hout.
  { unfold level_str, ljust, loc_str.
    rewrite !has_char_append, timestamp_no_esc, Hname, Hpath, Hmsg, pretty_Z_no_esc.
    by rewrite has_char_spaces. }
  split; [done|].
  destruct (has_ansi_escape _) eqn:Hansi; [|done].
  apply has_ansi_escape_has_char in Hansi. congruence.
Qed.

(** C4, as amended. The line is the four fields timestamp, level, location
    and message, in this order, joined by [" | "], and nothing else: the
    formatter appends nothing after the message field, so with the colour
    mode off a line ends with a newline exactly when the message does, and
    with the colour mode on never.
    The timestamp is rendered with the date format [%Y-%m-%d %H:%M:%S],
    which for a four-digit year has the shape [YYYY-MM-DD HH:MM:SS], and the
    location is the path and the line number joined by a colon. *)
Theorem format_four_fields (record : LogRecord) (ct : struct_time) (m : string) :
  local_time record ct → getMessage record = Ok m →
  format (MyFormatter_init false) record =
    Ok (join " | " [timestamp_text ct; level_str record; loc_str record; m]) ∧
  format (MyFormatter_init true) record =
    Ok (join " | " [GREEN +:+ timestamp_text ct +:+ RESET;
                    main_color record +:+ level_str record +:+ RESET;
                    BLUE +:+ loc_str record +:+ RESET;
                    main_color record +:+ m +:+ RESET]) ∧
  (∀ b, formatTime record (datefmt (MyFormatter_init b)) =
        strftime "%Y-%m-%d %H:%M:%S" ct) ∧
  (1000 ≤ tm_year ct ≤ 9999 →
   date_matches "YYYY-MM-DD HH:MM:SS" (timestamp_text ct) = true) ∧
  loc_str record = pathname record +:+ ":" +:+ pretty (lineno record) ∧
  endswith_newline
    (join " | " [timestamp_text ct; level_str record; loc_str record; m])
    = endswith_newline m ∧
  endswith_newline
    (join " | " [GREEN +:+ timestamp_text ct +:+ RESET;
                 main_color record +:+ level_str record +:+ RESET;
                 BLUE +:+ loc_str record +:+ RESET;
                 main_color record +:+ m +:+ RESET]) = false.
Proof.
  intros Hct Hm.
  split; [by apply format_plain_ok|]. split; [by apply format_color_ok|].
  split; [intros b; unfold formatTime; by rewrite (proj1 Hct)|].
  split; [intros Hyear; by apply timestamp_shape; [apply Hct|]|]. split; [done|].
  cbn [join]. split.
  - replace (timestamp_text ct +:+ " | " +:+ level_str record +:+ " | " +:+
             loc_str record +:+ " | " +:+ m)
      with ((timestamp_text ct +:+ " | " +:+ level_str record +:+ " | " +:+
             loc_str record +:+ " |") +:+ " " +:+ m)
      by (by rewrite !append_assoc).
    apply endswith_newline_after_space.
  - replace ((GREEN +:+ timestamp_text ct +:+ RESET) +:+ " | " +:+
             (main_color record +:+ level_str record +:+ RESET) +:+ " | " +:+
             (BLUE +:+ loc_str record +:+ RESET) +:+ " | " +:+
             main_color record +:+ m +:+ RESET)
      with (((GREEN +:+ timestamp_text ct +:+ RESET) +:+ " | " +:+
             (main_color record +:+ level_str record +:+ RESET) +:+ " | " +:+
             (BLUE +:+ loc_str record +:+ RESET) +:+ " |") +:+ " " +:+
             (main_color record +:+ m +:+ RESET))
      by (by rewrite !append_assoc).
    rewrite endswith_newline_after_space, <- append_assoc.
    by apply endswith_newline_append.
Qed.

(** C9, as amended. The formatter has no failure and no fallback of its own.
    For a record whose capture time converts, it returns a string exactly
    when the record's message conversion returns one, and that string
    carries the converted message as its fourth field; when the conversion
    raises, the formatter raises the same exception. The conversion is
    [str(msg)], followed by [%] with the arguments when there are any; a
    message that is not a string is rendered by its own string conversion:
    the decimal numeral of an integer, [True], [False], [None], or what the
    object's [__str__] returns or raises. *)
Theorem format_renders_message (b : bool) (record : LogRecord) (ct : struct_time) :
  local_time record ct →
  (∀ m, getMessage record = Ok m →
        format (MyFormatter_init b) record =
          Ok (rendered (MyFormatter_init b) record ct m)) ∧
  (∀ e, getMessage record = Raise e → format (MyFormatter_init b) record = Raise e) ∧
  (args record = [] → getMessage record = py_str (msg record)) ∧
  (args record = [] → ∀ text, py_str (msg record) = Ok text →
     format (MyFormatter_init b) record =
       Ok (rendered (MyFormatter_init b) record ct text)) ∧
  (args record ≠ [] → ∀ text, py_str (msg record) = Ok text →
     getMessage record = str_mod text (args record)) ∧
  (∀ e, py_str (msg record) = Raise e → format (MyFormatter_init b) record = Raise e) ∧
  (∀ s, py_str (PyStr s) = Ok s) ∧
  (∀ z, py_str (PyInt z) = Ok (pretty z)) ∧
  py_str (PyBool true) = Ok "True" ∧ py_str (PyBool false) = Ok "False" ∧
  py_str PyNone = Ok "None" ∧
  (∀ r, py_str (PyObject r) = r).
Proof.
  intros Hct.
  assert (∀ m, getMessage record = Ok m →
            format (MyFormatter_init b) record =
              Ok (rendered (MyFormatter_init b) record ct m)) as Hok.
  { intros m Hm. destruct b.
    - by apply format_color_ok.
    - by apply format_plain_ok. }
  assert (∀ e, getMessage record = Raise e →
            format (MyFormatter_init b) record = Raise e) as Hraise.
  { intros e Hm. unfold format. rewrite (formatTime_ok _ _ ct Hct).
    destruct b; simpl; by rewrite Hm. }
  assert (args record = [] → getMessage record = py_str (msg record)) as Hnoargs.
  { intros Hargs. unfold getMessage. rewrite Hargs.
    by destruct (py_str (msg record)). }
  split; [exact Hok|]. split; [exact Hraise|]. split; [exact Hnoargs|].
  split; [|split; [|split]].
  - intros Hargs text Htext. apply Hok. by rewrite Hnoargs.
  - intros Hargs text Htext. unfold getMessage. rewrite Htext.
    by destruct (args record).
  - intros e He. apply Hraise. unfold getMessage. by rewrite He.
  - by repeat split.
Qed.

End Rendering.

(** ** The logger assembly *)

Section AssemblyFacts.
Context {platform : Platform}.

Lemma bind_run {A B : Type} (m : M A) (f : A → M B) (w : world) :
  (m ≫= f) w =
  match m w with
  | (Ok a, w') => f a w'
  | (Raise e, w') => (Raise e, w')
  end.
Proof. reflexivity. Qed.

Lemma has_handlers_assembled (f : filesystem) (l : Logger) (w : world) :
  has_handlers (assembled f (l_handlers l) w)
    {| l_level := DEBUG; l_handlers := l_handlers l; l_propagate := l_propagate l |}
  = has_handlers w l.
Proof. reflexivity. Qed.

(** The course of [setup_logger], step by step. *)
Lemma setup_logger_eq (log_folder : string) (w : world) :
  setup_logger log_folder w =
  match ensure_dir log_folder (fs w) with
  | (Some e, f1) => (Raise e, set_fs f1 w)
  | (None, f1) =>
      let l0 := logger_of "AppLogger" w in
      if has_handlers w l0 then (Ok "AppLogger", assembled f1 (l_handlers l0) w)
      else
        match open_append (os_path_join log_folder "log.txt") f1 with
        | (Some e, f2) => (Raise e, assembled f2 [console_sink] w)
        | (None, f2) => (Ok "AppLogger", assembled f2 [console_sink; file_sink log_folder] w)
        end
  end.
Proof.
  destruct w as [f0 r0 dict out].
  unfold setup_logger, ensure_dir. cbn [fs].
  rewrite bind_run. unfold path_exists at 1. cbn [fs].
  rewrite bind_run.
  destruct (os_path_exists log_folder f0); cbn [negb].
  2: unfold makedirs, os_call; cbn [fs];
     destruct (os_makedirs log_folder f0) as [[e|] f0']; [done|].
  all: cbv [mret M_ret set_fs fs root loggerDict output].
  all: rewrite bind_run; unfold getLogger at 1; cbn [loggerDict].
  all: destruct (dict !! "AppLogger") as [l|] eqn:Hl.
  all: rewrite bind_run; unfold Logger_setLevel, update_logger, logger_of at 1.
  all: cbv [set_loggerDict fs root loggerDict output]; rewrite ?lookup_insert_eq, ?Hl.
  all: cbn [default l_handlers l_propagate Logger_init].
  all: rewrite bind_run; unfold hasHandlers at 1.
  all: unfold assembled, logger_of; cbn [loggerDict fs root output].
  all: rewrite ?lookup_insert_eq, ?Hl, ?insert_insert_eq.
  all: cbn [default id l_handlers l_propagate l_level Logger_init].
  all: unfold has_handlers at 1 2; cbn [l_handlers l_propagate root].
  all: destruct (open_append (os_path_join log_folder "log.txt") _) as [[e|] f2] eqn:Hopen.
  all: repeat case_match; try done.
  all: rewrite bind_run; unfold addHandler at 1, update_logger, logger_of.
  all: cbv [set_loggerDict fs root loggerDict output].
  all: rewrite ?lookup_insert_eq, ?insert_insert_eq.
  all: cbv [default id l_handlers l_propagate l_level app].
  all: rewrite bind_run; unfold FileHandler; rewrite bind_run; unfold os_call.
  all: cbv [set_fs fs root loggerDict output mret M_ret]; rewrite Hopen; try done.
  all: rewrite bind_run; unfold addHandler, update_logger, logger_of.
  all: cbv [set_loggerDict fs root loggerDict output].
  all: rewrite ?lookup_insert_eq, ?insert_insert_eq.
  all: cbv [default id l_handlers l_propagate l_level app].
  all: done.
Qed.

(** *** Emission through the two sinks *)

Lemma emit_ok (h : Handler) (fmt : MyFormatter) (record : LogRecord) (text : string)
    (w : world) :
  h_formatter h = Some fmt → format fmt record = Ok text →
  emit h record w = write (h_stream h) (text +:+ String "010"%char "") w.
Proof. intros Hfmt Htext. unfold emit, Handler_format. by rewrite Hfmt, Htext. Qed.

(** A logger at threshold DEBUG whose handlers are the two sinks, and whose
    ancestors have none, writes a record of level DEBUG or above once to the
    file, and once to the console when its level is INFO or above. *)
Lemma handle_two_sinks (name log_folder : string) (w : world) (record : LogRecord)
    (ct : struct_time) (m : string) :
  l_level (logger_of name w) = DEBUG →
  l_handlers (logger_of name w) = [console_sink; file_sink log_folder] →
  (l_propagate (logger_of name w) = true → l_handlers (root w) = []) →
  local_time record ct → getMessage record = Ok m →
  output (Logger_handle name record w) =
    output w ++
    (if bool_decide (levelno record >= DEBUG) then
       (if bool_decide (levelno record >= INFO)
        then [line Stdout (MyFormatter_init true) record ct m] else []) ++
       [line (h_stream (file_sink log_folder)) (MyFormatter_init false) record ct m]
     else []).
Proof.
  intros Hlevel Hhs Hroot Hct Hm.
  unfold Logger_handle, getEffectiveLevel. rewrite Hlevel.
  rewrite (bool_decide_eq_false_2 (DEBUG = NOTSET)) by done.
  case_bool_decide as Hdebug; [|by rewrite app_nil_r].
  unfold callHandlers. rewrite Hhs.
  assert (output (handle_all [console_sink; file_sink log_folder] record w) =
    output w ++
    (if bool_decide (levelno record >= INFO)
     then [line Stdout (MyFormatter_init true) record ct m] else []) ++
    [line (h_stream (file_sink log_folder)) (MyFormatter_init false) record ct m]) as Hown.
  { unfold handle_all. cbn [fold_left].
    change (h_level console_sink) with INFO. change (h_level (file_sink log_folder)) with DEBUG.
    rewrite (bool_decide_eq_true_2 (levelno record >= DEBUG)) by done.
    rewrite (emit_ok (file_sink log_folder) (MyFormatter_init false) record _ _
               eq_refl (format_plain_ok _ _ _ Hct Hm)).
    case_bool_decide.
    - rewrite (emit_ok console_sink (MyFormatter_init true) record _ _
                 eq_refl (format_color_ok _ _ _ Hct Hm)).
      cbn [write output]. by rewrite <- app_assoc.
    - done. }
  destruct (l_propagate (logger_of name w)); [|done].
  by rewrite Hroot.
Qed.

Lemma logger_of_assembled (f : filesystem) (hs : list Handler) (w : world) :
  logger_of "AppLogger" (assembled f hs w) =
  {| l_level := DEBUG; l_handlers := hs;
     l_propagate := l_propagate (logger_of "AppLogger" w) |}.
Proof. unfold logger_of, assembled. cbn [loggerDict]. by rewrite lookup_insert_eq. Qed.

Lemma has_handlers_false (w : world) (l : Logger) :
  has_handlers w l = false →
  l_handlers l = [] ∧ (l_propagate l = true → l_handlers (root w) = []).
Proof.
  unfold has_handlers. destruct (l_handlers l); [|done].
  destruct (l_propagate l); [|done].
  by destruct (l_handlers (root w)).
Qed.

(** A successful call leaves the application logger with handlers in reach. *)
Lemma setup_logger_ok (log_folder : string) (w w' : world) (lg : string) :
  setup_logger log_folder w = (Ok lg, w') →
  lg = "AppLogger" ∧ has_handlers w' (logger_of "AppLogger" w') = true ∧
  l_level (logger_of "AppLogger" w') = DEBUG ∧
  is_Some (loggerDict w' !! "AppLogger").
Proof.
  rewrite setup_logger_eq.
  destruct (ensure_dir log_folder (fs w)) as [[e|] f1]; [done|]. cbv zeta.
  destruct (has_handlers w (logger_of "AppLogger" w)) eqn:Hconf.
  - intros [= <- <-]. rewrite logger_of_assembled.
    split; [done|]. split; [|split; [done|]].
    + by rewrite has_handlers_assembled.
    + unfold assembled. cbn [loggerDict]. by rewrite lookup_insert_eq.
  - destruct (open_append _ f1) as [[e|] f2]; [done|].
    intros [= <- <-]. rewrite logger_of_assembled.
    split; [done|]. split; [done|]. split; [done|].
    unfold assembled. cbn [loggerDict]. by rewrite lookup_insert_eq.
Qed.

End AssemblyFacts.

(** ** Setting up the logger *)

Section Setup.
Context {platform : Platform}.

(** C7, as amended. Set up in a process where the application logger has no
    handler in reach, none of its own and none on an ancestor it propagates
    to, [setup_logger] returns the logger at threshold DEBUG with two
    sinks. The console sink writes to standard output from INFO upwards with
    the colour mode on; the file sink appends UTF-8 text to [log.txt] in the
    directory from DEBUG upwards with the colour mode off. A record at DEBUG
    therefore adds one line to the file and none to the console. *)
Theorem setup_builds_two_sinks (log_folder : string) (w : world) (f1 f2 : filesystem) :
  has_handlers w (logger_of "AppLogger" w) = false →
  ensure_dir log_folder (fs w) = (None, f1) →
  open_append (os_path_join log_folder "log.txt") f1 = (None, f2) →
  ∃ w', setup_logger log_folder w = (Ok "AppLogger", w') ∧
    l_level (logger_of "AppLogger" w') = DEBUG ∧
    l_handlers (logger_of "AppLogger" w') = [console_sink; file_sink log_folder] ∧
    console_sink = {| h_stream := Stdout; h_level := INFO;
                      h_formatter := Some (MyFormatter_init true) |} ∧
    file_sink log_folder =
      {| h_stream := FileStream (os_path_join log_folder "log.txt") "a" "utf-8";
         h_level := DEBUG; h_formatter := Some (MyFormatter_init false) |} ∧
    (log_folder ≠ "" → endswith_sep log_folder = false →
     os_path_join log_folder "log.txt" = log_folder +:+ "/log.txt") ∧
    ∀ (record : LogRecord) (ct : struct_time) (m : string),
      local_time record ct → getMessage record = Ok m →
      output (Logger_handle "AppLogger" record w') =
        output w' ++
        (if bool_decide (levelno record >= DEBUG) then
           (if bool_decide (levelno record >= INFO)
            then [line Stdout (MyFormatter_init true) record ct m] else []) ++
           [line (h_stream (file_sink log_folder)) (MyFormatter_init false) record ct m]
         else []) ∧
      (levelno record = DEBUG →
       written_to Stdout (Logger_handle "AppLogger" record w') = written_to Stdout w' ∧
       written_to (h_stream (file_sink log_folder)) (Logger_handle "AppLogger" record w') =
         written_to (h_stream (file_sink log_folder)) w' ++
         [(line (h_stream (file_sink log_folder)) (MyFormatter_init false) record ct m).2]).
Proof.
  intros Hfresh Hdir Hopen.
  destruct (has_handlers_false _ _ Hfresh) as [Hnone Hroot].
  eexists. split.
  { rewrite setup_logger_eq, Hdir. cbv zeta. by rewrite Hfresh, Hopen. }
  rewrite logger_of_assembled. cbn [l_level l_handlers].
  do 4 (split; [done|]). split.
  { intros Hne Hsep. unfold os_path_join. cbn [startswith_sep Ascii.eqb].
    rewrite Hsep. rewrite bool_decide_eq_false_2 by done. done. }
  intros record ct m Hct Hm.
  assert (output (Logger_handle "AppLogger" record
                    (assembled f2 [console_sink; file_sink log_folder] w)) =
    output (assembled f2 [console_sink; file_sink log_folder] w) ++
    (if bool_decide (levelno record >= DEBUG) then
       (if bool_decide (levelno record >= INFO)
        then [line Stdout (MyFormatter_init true) record ct m] else []) ++
       [line (h_stream (file_sink log_folder)) (MyFormatter_init false) record ct m]
     else [])) as Hout.
  { apply handle_two_sinks; rewrite ?logger_of_assembled; try done. }
  split; [exact Hout|].
  intros Hdebug. unfold written_to. rewrite Hout, Hdebug.
  rewrite (bool_decide_eq_true_2 (DEBUG >= DEBUG)) by (unfold DEBUG; lia).
  rewrite (bool_decide_eq_false_2 (DEBUG >= INFO)) by (unfold DEBUG, INFO; lia).
  cbn [app]. rewrite !filter_app, !fmap_app.
  split.
  - rewrite filter_cons_False by done. by rewrite filter_nil, app_nil_r.
  - rewrite filter_cons_True by done. by rewrite filter_nil.
Qed.

(** C5. Once a first call has set the logger up, a second call, whose
    directory step succeeds, returns the same logger with the same two
    sinks and no further handler; a record sent through it afterwards is
    written once to the file, and once to the console when its level is
    INFO or above. *)
Theorem second_setup_same_sinks (d0 d1 : string) (w0 w1 : world) (lg : string)
    (f : filesystem) :
  has_handlers w0 (logger_of "AppLogger" w0) = false →
  setup_logger d0 w0 = (Ok lg, w1) →
  ensure_dir d1 (fs w1) = (None, f) →
  ∃ w2, setup_logger d1 w1 = (Ok lg, w2) ∧
    l_handlers (logger_of lg w1) = [console_sink; file_sink d0] ∧
    l_handlers (logger_of lg w2) = l_handlers (logger_of lg w1) ∧
    length (l_handlers (logger_of lg w2)) = 2%nat ∧
    ∀ (record : LogRecord) (ct : struct_time) (m : string),
      local_time record ct → getMessage record = Ok m →
      output (Logger_handle lg record w2) =
        output w2 ++
        (if bool_decide (levelno record >= DEBUG) then
           (if bool_decide (levelno record >= INFO)
            then [line Stdout (MyFormatter_init true) record ct m] else []) ++
           [line (h_stream (file_sink d0)) (MyFormatter_init false) record ct m]
         else []).
Proof.
  intros Hfresh Hfirst Hdir.
  destruct (has_handlers_false _ _ Hfresh) as [Hnone Hroot].
  destruct (setup_logger_ok _ _ _ _ Hfirst) as (-> & Hconf & Hlevel & _).
  rewrite setup_logger_eq in Hfirst.
  destruct (ensure_dir d0 (fs w0)) as [[e|] f1]; [done|].
  cbv zeta in Hfirst. rewrite Hfresh in Hfirst.
  destruct (open_append _ f1) as [[e|] f2]; [done|].
  injection Hfirst as <-.
  eexists. split.
  { rewrite setup_logger_eq, Hdir. cbv zeta. by rewrite Hconf. }
  rewrite !logger_of_assembled. cbn [l_handlers].
  do 3 (split; [done|]).
  intros record ct m Hct Hm.
  apply handle_two_sinks; rewrite ?logger_of_assembled; try done.
Qed.

(** C6, as amended. After a first successful call, a repeated call registers
    no sink and returns the existing logger: it leaves the logger's
    handlers, the root logger, every other logger and the output as they
    are. It still runs the directory step for its argument, so it creates
    the directory when the path does not exist, a failure going to the
    caller, and it sets the logger's threshold to DEBUG again. When the path
    exists and the threshold has not been changed, the call changes
    nothing. *)
Theorem repeated_setup (d0 d1 : string) (w0 w1 : world) (lg : string) :
  setup_logger d0 w0 = (Ok lg, w1) →
  lg = "AppLogger" ∧
  has_handlers w1 (logger_of lg w1) = true ∧
  (os_path_exists d1 (fs w1) = true → setup_logger d1 w1 = (Ok lg, w1)) ∧
  ∀ w : world,
    has_handlers w (logger_of lg w) = true →
    match ensure_dir d1 (fs w) with
    | (Some e, f) => setup_logger d1 w = (Raise e, set_fs f w)
    | (None, f) =>
        ∃ w', setup_logger d1 w = (Ok lg, w') ∧
          fs w' = f ∧ root w' = root w ∧ output w' = output w ∧
          l_handlers (logger_of lg w') = l_handlers (logger_of lg w) ∧
          l_propagate (logger_of lg w') = l_propagate (logger_of lg w) ∧
          l_level (logger_of lg w') = DEBUG ∧
          ∀ name : string, name ≠ lg → loggerDict w' !! name = loggerDict w !! name
    end.
Proof.
  intros Hfirst.
  destruct (setup_logger_ok _ _ _ _ Hfirst) as (-> & Hconf & Hlevel & [l Hl]).
  split; [done|]. split; [done|]. split.
  - intros Hex. rewrite setup_logger_eq. unfold ensure_dir. rewrite Hex. cbv zeta.
    rewrite Hconf. f_equal.
    unfold logger_of in Hlevel. rewrite Hl in Hlevel. cbn [default] in Hlevel.
    unfold assembled, logger_of. rewrite Hl. cbn [default].
    destruct w1 as [f1 r1 dict1 out1]. cbn [fs root loggerDict output] in *.
    f_equal. apply insert_id. rewrite Hl. f_equal.
    destruct l as [lv hs p]. cbn [id l_level l_handlers l_propagate] in *. by subst lv.
  - intros w Hw. rewrite setup_logger_eq.
    destruct (ensure_dir d1 (fs w)) as [[e|] f]; [done|]. cbv zeta. rewrite Hw.
    eexists. split; [done|]. rewrite logger_of_assembled.
    do 6 (split; [done|]).
    intros name Hname. unfold assembled. cbn [loggerDict].
    by rewrite lookup_insert_ne.
Qed.

(** C8. When the directory does not exist and cannot be created, the
    exception raised by [os.makedirs] is what [setup_logger] raises: the
    directory is attempted once, no logger is returned, and the logging
    state is as it was. *)
Theorem setup_directory_failure (log_folder : string) (w : world) (e : exn)
    (f : filesystem) :
  os_path_exists log_folder (fs w) = false →
  os_makedirs log_folder (fs w) = (Some e, f) →
  setup_logger log_folder w = (Raise e, set_fs f w) ∧
  (∀ lg w', setup_logger log_folder w ≠ (Ok lg, w')) ∧
  loggerDict (set_fs f w) = loggerDict w ∧
  root (set_fs f w) = root w ∧
  output (set_fs f w) = output w.
Proof.
  intros Hex Hmk.
  assert (setup_logger log_folder w = (Raise e, set_fs f w)) as Hraise.
  { rewrite setup_logger_eq. unfold ensure_dir. by rewrite Hex, Hmk. }
  split; [done|]. split; [|done].
  intros lg w'. by rewrite Hraise.
Qed.

End Setup.

(** ** The theorems at work on the reference platform *)

Section Instances.
Import Reference.

Lemma location_offset_plain_witness :
  ∃ out1 out2 offset,
    format (MyFormatter_init false) info_record = Ok out1 ∧
    format (MyFormatter_init false) warning_record = Ok out2 ∧
    field_at offset (loc_str info_record) out1 = true ∧
    field_at offset (loc_str warning_record) out2 = true ∧
    field_at (offset - 11) (level_str info_record) out1 = true ∧
    field_at (offset - 11) (level_str warning_record) out2 = true ∧
    offset = 33%nat.
Proof.
  apply (location_offset_plain info_record warning_record stamp stamp
           "Process started." "Configuration file not found.").
  - simpl. lia.
  - simpl. lia.
  - split; reflexivity.
  - simpl. lia.
  - split; reflexivity.
  - simpl. lia.
  - reflexivity.
  - reflexivity.
Defined.

Lemma location_offset_color_witness :
  ∃ out1 out2 offset,
    format (MyFormatter_init true) info_record = Ok out1 ∧
    format (MyFormatter_init true) warning_record = Ok out2 ∧
    field_at offset (BLUE +:+ loc_str info_record +:+ RESET) out1 = true ∧
    field_at offset (BLUE +:+ loc_str warning_record +:+ RESET) out2 = true ∧
    offset = 57%nat.
Proof.
  apply (location_offset_color info_record warning_record stamp stamp
           "Process started." "Configuration file not found.").
  - simpl. lia.
  - simpl. lia.
  - split; reflexivity.
  - simpl. lia.
  - split; reflexivity.
  - simpl. lia.
  - reflexivity.
  - reflexivity.
Defined.


Lemma plain_output_no_escape_witness :
  ∃ out, format (MyFormatter_init false) info_record = Ok out ∧
         has_char ESC out = false ∧ has_ansi_escape out = false.
Proof.
  apply (plain_output_no_escape info_record stamp "Process started.").
  - split; reflexivity.
  - reflexivity.
  - reflexivity.
  - reflexivity.
  - reflexivity.
Defined.

(** C3, the claim as stated, fails: a message may carry escape sequences of
    its own, and the formatter copies it to the output as it is. *)
Lemma plain_output_escape_counterexample :
  ¬ (∀ (record : LogRecord) (out : string),
       format (MyFormatter_init false) record = Ok out →
       has_ansi_escape out = false).
Proof.
  intros Hnone.
  specialize (Hnone tinted_record _ eq_refl).
  vm_compute in Hnone. discriminate Hnone.
Qed.

Lemma format_four_fields_witness :
  format (MyFormatter_init false) info_record =
    Ok (join " | " [timestamp_text stamp; level_str info_record;
                    loc_str info_record; "Process started."]) ∧
  date_matches "YYYY-MM-DD HH:MM:SS" (timestamp_text stamp) = true.
Proof.
  assert (local_time info_record stamp) as Hct by (split; reflexivity).
  pose proof (format_four_fields info_record stamp "Process started." Hct eq_refl)
    as (Hplain & _ & _ & Hshape & _).
  split; [exact Hplain|]. apply Hshape. simpl. lia.
Defined.

Lemma format_renders_message_witness :
  format (MyFormatter_init false) (job_record CRITICAL "CRITICAL" (PyInt (-3)) []) =
  Ok "1970-01-01 00:00:00 | CRITICAL | job.py:7 | -3".
Proof.
  assert (local_time (job_record CRITICAL "CRITICAL" (PyInt (-3)) [])
            {| tm_year := 1970; tm_mon := 1; tm_mday := 1;
               tm_hour := 0; tm_min := 0; tm_sec := 0 |}) as Hct
    by (split; reflexivity).
  pose proof (format_renders_message false
                (job_record CRITICAL "CRITICAL" (PyInt (-3)) []) _ Hct)
    as (_ & _ & _ & Hnoargs & _).
  rewrite (Hnoargs eq_refl "-3" eq_refl). reflexivity.
Defined.

(** C9, the claim as stated, fails: the capture time of these records
    converts, yet formatting raises, once because the arguments do not fit
    the message, once because the string conversion of the message object
    itself raises. *)
Lemma format_raises_counterexample :
  let epoch := {| tm_year := 1970; tm_mon := 1; tm_mday := 1;
                  tm_hour := 0; tm_min := 0; tm_sec := 0 |} in
  let mismatched := job_record INFO "INFO" (PyStr "%d items") [PyStr "three"] in
  let unprintable :=
    job_record INFO "INFO" (PyObject (Raise (OtherException "RuntimeError"))) [] in
  local_time mismatched epoch ∧ local_time unprintable epoch ∧
  format (MyFormatter_init false) mismatched = Raise TypeError ∧
  format (MyFormatter_init true) mismatched = Raise TypeError ∧
  format (MyFormatter_init false) unprintable = Raise (OtherException "RuntimeError") ∧
  ¬ (∀ (record : LogRecord) (ct : struct_time),
       local_time record ct → ∃ out, format (MyFormatter_init false) record = Ok out).
Proof.
  cbv zeta. do 5 (split; [by repeat split|]).
  intros Htotal.
  destruct (Htotal (job_record INFO "INFO" (PyStr "%d items") [PyStr "three"])
              {| tm_year := 1970; tm_mon := 1; tm_mday := 1;
                 tm_hour := 0; tm_min := 0; tm_sec := 0 |}) as [out Hout];
    [by split|].
  discriminate Hout.
Qed.

(** C4, the claim as stated, fails: a message that ends with a newline
    gives a line that ends with a newline. *)
Lemma format_trailing_newline_counterexample :
  ¬ (∀ (record : LogRecord) (out : string),
       format (MyFormatter_init false) record = Ok out →
       endswith_newline out = false).
Proof.
  intros Hnone.
  specialize (Hnone (job_record INFO "INFO" (PyStr ("done" +:+ String "010"%char "")) [])
                _ eq_refl).
  vm_compute in Hnone. discriminate Hnone.
Qed.

(** C7, the claim as stated, fails: in a process whose root logger already
    has a handler, the first call attaches no sink and opens no file, and a
    record at DEBUG goes to the console through the root logger's handler
    and not to the file. *)
Lemma setup_with_configured_root_counterexample :
  let w := {| fs := fs fresh;
              root := {| l_level := WARNING; l_handlers := [StreamHandler Stdout];
                         l_propagate := true |};
              loggerDict := ∅; output := [] |} in
  let w' := (setup_logger "logs" w).2 in
  (setup_logger "logs" w).1 = Ok "AppLogger" ∧
  l_handlers (logger_of "AppLogger" w') = [] ∧
  os_path_exists "logs/log.txt" (fs w') = false ∧
  output (Logger_handle "AppLogger" debug_record w') =
    [(Stdout, "cache miss" +:+ String "010"%char "")].
Proof. cbv zeta. repeat split; reflexivity. Qed.

Lemma setup_builds_two_sinks_witness :
  ∃ w', setup_logger "logs" fresh = (Ok "AppLogger", w') ∧
        l_level (logger_of "AppLogger" w') = DEBUG ∧
        l_handlers (logger_of "AppLogger" w') = [console_sink; file_sink "logs"].
Proof.
  destruct (setup_builds_two_sinks "logs" fresh
              {| dirs := {["logs"]}; files := ∅; unwritable := {["/proc/logs"]} |}
              with_logs)
    as (w' & Hsetup & Hlevel & Hhandlers & _).
  - reflexivity.
  - reflexivity.
  - reflexivity.
  - exists w'. split; [exact Hsetup|]. split; [exact Hlevel | exact Hhandlers].
Defined.

Lemma second_setup_same_sinks_witness :
  ∃ w2, setup_logger "logs"
          (assembled with_logs [console_sink; file_sink "logs"] fresh) =
        (Ok "AppLogger", w2) ∧
        length (l_handlers (logger_of "AppLogger" w2)) = 2%nat.
Proof.
  destruct (second_setup_same_sinks "logs" "logs" fresh
              (assembled with_logs [console_sink; file_sink "logs"] fresh)
              "AppLogger" with_logs)
    as (w2 & Hsecond & _ & _ & Htwo & _).
  - reflexivity.
  - reflexivity.
  - reflexivity.
  - exists w2. split; [exact Hsecond | exact Htwo].
Defined.

Lemma repeated_setup_witness :
  setup_logger "logs" (assembled with_logs [console_sink; file_sink "logs"] fresh) =
  (Ok "AppLogger", assembled with_logs [console_sink; file_sink "logs"] fresh).
Proof.
  destruct (repeated_setup "logs" "logs" fresh
              (assembled with_logs [console_sink; file_sink "logs"] fresh) "AppLogger")
    as (_ & _ & Hsame & _).
  - reflexivity.
  - apply Hsame. reflexivity.
Defined.

(** C6, the claim as stated, fails. A repeated call with a path that does
    not exist creates the directory before it finds the logger configured;
    and a repeated call puts the logger's threshold back to DEBUG when the
    application had raised it. *)
Lemma repeated_setup_counterexample :
  let first := setup_logger "logs" fresh in
  let second := setup_logger "archive" first.2 in
  let raised := (Logger_setLevel "AppLogger" WARNING first.2).2 in
  let third := setup_logger "logs" raised in
  first.1 = Ok "AppLogger" ∧ second.1 = Ok "AppLogger" ∧
  os_path_exists "archive" (fs first.2) = false ∧
  os_path_exists "archive" (fs second.2) = true ∧
  second.2 ≠ first.2 ∧
  third.1 = Ok "AppLogger" ∧
  l_level (logger_of "AppLogger" raised) = WARNING ∧
  l_level (logger_of "AppLogger" third.2) = DEBUG ∧
  third.2 ≠ raised.
Proof.
  cbv zeta. do 4 (split; [reflexivity|]). split; [|do 3 (split; [reflexivity|])].
  - intros Heq. apply (f_equal (λ w, os_path_exists "archive" (fs w))) in Heq.
    vm_compute in Heq. discriminate Heq.
  - intros Heq. apply (f_equal (λ w, l_level (logger_of "AppLogger" w))) in Heq.
    vm_compute in Heq. discriminate Heq.
Qed.

Lemma setup_directory_failure_witness :
  setup_logger "/proc/logs" fresh = (Raise (OSError "EACCES"), set_fs (fs fresh) fresh).
Proof.
  apply (setup_directory_failure "/proc/logs" fresh (OSError "EACCES") (fs fresh)).
  - reflexivity.
  - reflexivity.
Defined.

End Instances.

(** ** Further properties of the formatter *)

Lemma strip_go_plain (s t : string) :
  has_char ESC s = false → strip_go false (s +:+ t) = s +:+ strip_go false t.
Proof.
  induction s as [|c s IH]; [done|].
  cbn [has_char]. intros [Hc Hs]%orb_false_elim.
  rewrite !append_cons. cbn [strip_go].
  rewrite Ascii.eqb_sym, Hc. by rewrite IH.
Qed.

(** Every colour code of the formatter is removed as a whole. *)
Lemma strip_go_codes (t : string) :
  strip_go false (GREY +:+ t) = strip_go false t ∧
  strip_go false (GREEN +:+ t) = strip_go false t ∧
  strip_go false (YELLOW +:+ t) = strip_go false t ∧
  strip_go false (RED +:+ t) = strip_go false t ∧
  strip_go false (BLUE +:+ t) = strip_go false t ∧
  strip_go false (RESET +:+ t) = strip_go false t.
Proof. repeat split; reflexivity. Qed.

Lemma strip_go_wrapped (code s t : string) :
  (∀ u, strip_go false (code +:+ u) = strip_go false u) →
  has_char ESC s = false →
  strip_go false ((code +:+ s +:+ RESET) +:+ t) = s +:+ strip_go false t.
Proof.
  intros Hcode Hs. rewrite !append_assoc, Hcode, strip_go_plain by done.
  by rewrite (proj2 (proj2 (proj2 (proj2 (proj2 (strip_go_codes t)))))).
Qed.

Section FormatterMore.
Context {platform : Platform}.

Lemma strip_go_main_color (record : LogRecord) (u : string) :
  strip_go false (main_color record +:+ u) = strip_go false u.
Proof. unfold main_color. by repeat case_bool_decide. Qed.

Lemma level_str_no_esc (record : LogRecord) :
  has_char ESC (levelname record) = false → has_char ESC (level_str record) = false.
Proof.
  intros Hname. unfold level_str, ljust.
  by rewrite has_char_append, Hname, has_char_spaces.
Qed.

Lemma loc_str_no_esc (record : LogRecord) :
  has_char ESC (pathname record) = false → has_char ESC (loc_str record) = false.
Proof.
  intros Hpath. unfold loc_str.
  by rewrite !has_char_append, Hpath, pretty_Z_no_esc.
Qed.

(** X1. The location column moves with an overlong level name. For every
    record, whatever the length [n] of its level name, the level field
    begins at offset 22 and the location at offset [25 + max 8 n] with the
    colour mode off, and the blue location field at offset [49 + max 8 n]
    with the colour mode on: a name of more than 8 characters is not cut,
    and shifts what follows by the excess. *)
Theorem location_offset_any_level (record : LogRecord) (ct : struct_time) (m : string) :
  local_time record ct → 1000 ≤ tm_year ct ≤ 9999 → getMessage record = Ok m →
  ∃ plain colored : string,
    format (MyFormatter_init false) record = Ok plain ∧
    format (MyFormatter_init true) record = Ok colored ∧
    field_at 22 (level_str record) plain = true ∧
    field_at (25 + 8 `max` String.length (levelname record)) (loc_str record) plain = true ∧
    field_at (49 + 8 `max` String.length (levelname record))
      (BLUE +:+ loc_str record +:+ RESET) colored = true ∧
    field_at 0 (levelname record) (level_str record) = true.
Proof.
  intros Hct Hyear Hm. eexists _, _.
  rewrite (format_plain_ok record ct m), (format_color_ok record ct m) by done.
  pose proof (timestamp_length ct (proj2 Hct) Hyear) as Hts.
  pose proof (ljust_length LEVEL_WIDTH (levelname record)) as Hlevel.
  fold (level_str record) in Hlevel.
  unfold timestamp_text in *. simpl datefmt in *.
  do 2 (split; [done|]). repeat split.
  - apply field_at_third. rewrite Hts. reflexivity.
  - apply field_at_fifth. rewrite Hts, Hlevel. unfold LEVEL_WIDTH. simpl String.length. lia.
  - apply field_at_fifth.
    rewrite !length_append, Hts, Hlevel, main_color_length.
    unfold LEVEL_WIDTH. simpl String.length. lia.
  - unfold level_str, ljust. apply (field_at_split "" (levelname record)).
Qed.

(** X2. The console line without its colour codes is the file line. For a
    record whose level name, path and message contain no escape character,
    removing the colour codes from the line formatted with the colour mode
    on gives the line formatted with the colour mode off, and the colours
    account for exactly 48 characters. *)
Theorem strip_colors_gives_plain (record : LogRecord) (ct : struct_time) (m : string) :
  local_time record ct → getMessage record = Ok m →
  has_char ESC (levelname record) = false →
  has_char ESC (pathname record) = false →
  has_char ESC m = false →
  ∃ plain colored : string,
    format (MyFormatter_init false) record = Ok plain ∧
    format (MyFormatter_init true) record = Ok colored ∧
    strip_colors colored = plain ∧
    strip_colors plain = plain ∧
    String.length colored = (String.length plain + 48)%nat.
Proof.
  intros Hct Hm Hname Hpath Hmsg. eexists _, _.
  rewrite (format_plain_ok record ct m), (format_color_ok record ct m) by done.
  pose proof (level_str_no_esc record Hname) as Hlevel.
  pose proof (loc_str_no_esc record Hpath) as Hloc.
  assert (has_char ESC (timestamp_text ct) = false) as Hts by apply timestamp_no_esc.
  do 2 (split; [done|]). split; [|split].
  - unfold strip_colors.
    rewrite (strip_go_wrapped GREEN) by (done || apply strip_go_codes).
    rewrite (strip_go_plain " | ") by done.
    rewrite (strip_go_wrapped (main_color record)) by (done || apply strip_go_main_color).
    rewrite (strip_go_plain " | ") by done.
    rewrite (strip_go_wrapped BLUE) by (done || apply strip_go_codes).
    rewrite (strip_go_plain " | ") by done.
    rewrite <- (append_empty_r (main_color record +:+ m +:+ RESET)).
    rewrite (strip_go_wrapped (main_color record)) by (done || apply strip_go_main_color).
    cbn [strip_go]. by rewrite append_empty_r.
  - unfold strip_colors.
    rewrite <- (append_empty_r m) at 1.
    rewrite !(strip_go_plain _ _) by done.
    cbn [strip_go]. by rewrite append_empty_r.
  - rewrite !length_append, main_color_length. simpl String.length. lia.
Qed.

(** X3. The colour mode has no part in failure. When the conversion of the
    capture time raises, the formatter raises that exception whatever the
    message, even one whose own conversion would raise another; and for
    every record the formatter raises with the colour mode on exactly when
    it raises with the colour mode off, with the same exception. *)
Theorem format_failure (record : LogRecord) :
  (∀ b e, converter (created record) = Raise e →
          format (MyFormatter_init b) record = Raise e) ∧
  (∀ e, format (MyFormatter_init true) record = Raise e ↔
        format (MyFormatter_init false) record = Raise e) ∧
  ((∃ out, format (MyFormatter_init true) record = Ok out) ↔
   (∃ out, format (MyFormatter_init false) record = Ok out)).
Proof.
  split.
  { intros b e He. unfold format, formatTime. by rewrite He. }
  unfold format, formatTime, strftime.
  destruct (converter (created record)) as [ct|e0]; simpl.
  - destruct (tm_in_range ct); simpl.
    + destruct (getMessage record) as [m|e0]; simpl.
      * split; [done|]. split; intros _; eauto.
      * split; [done|]. split; by intros [out Hout].
    + split; [done|]. split; by intros [out Hout].
  - split; [done|]. split; by intros [out Hout].
Qed.

End FormatterMore.

(** ** Further properties of the logger assembly *)

Section SetupMore.
Context {platform : Platform}.

(** X4. What [setup_logger] never touches. Whatever its outcome, a value or
    an exception, a call writes nothing to any stream, leaves the level,
    the handlers and the [propagate] flag of the root logger as they are,
    keeps the application logger's [propagate] flag, and leaves every logger
    that is neither the application logger nor below it in the hierarchy
    of names as it is. *)
Theorem setup_logger_frame (log_folder : string) (w : world) :
  let w' := (setup_logger log_folder w).2 in
  output w' = output w ∧ root w' = root w ∧
  l_propagate (logger_of "AppLogger" w') = l_propagate (logger_of "AppLogger" w) ∧
  ∀ name : string,
    name ≠ "AppLogger" → below_app_logger name = false →
    loggerDict w' !! name = loggerDict w !! name.
Proof.
  cbv zeta. rewrite setup_logger_eq.
  destruct (ensure_dir log_folder (fs w)) as [[e|] f1]; [done|]. cbv zeta.
  assert (∀ f hs,
    output (assembled f hs w) = output w ∧ root (assembled f hs w) = root w ∧
    l_propagate (logger_of "AppLogger" (assembled f hs w)) =
      l_propagate (logger_of "AppLogger" w) ∧
    ∀ name : string, name ≠ "AppLogger" → below_app_logger name = false →
      loggerDict (assembled f hs w) !! name = loggerDict w !! name) as Hframe.
  { intros f hs. rewrite logger_of_assembled. do 3 (split; [done|]).
    intros name Hname _. unfold assembled. cbn [loggerDict]. by rewrite lookup_insert_ne. }
  destruct (has_handlers w (logger_of "AppLogger" w)); [apply Hframe|].
  destruct (open_append _ f1) as [[e|] f2]; apply Hframe.
Qed.

(** X5. Handlers are only ever added. Whatever the outcome of a call, the
    handlers the application logger had are kept, in their order, and what
    is added after them is nothing, the console sink alone, or the console
    sink and the file sink; when the call returns, the logger has a handler
    in reach and its threshold is DEBUG. *)
Theorem setup_logger_handlers_grow (log_folder : string) (w : world) :
  let w' := (setup_logger log_folder w).2 in
  (∃ added,
     l_handlers (logger_of "AppLogger" w') =
       l_handlers (logger_of "AppLogger" w) ++ added ∧
     (added = [] ∨ added = [console_sink] ∨
      added = [console_sink; file_sink log_folder])) ∧
  ((setup_logger log_folder w).1 = Ok "AppLogger" →
   has_handlers w' (logger_of "AppLogger" w') = true ∧
   l_level (logger_of "AppLogger" w') = DEBUG) ∧
  (∀ lg, (setup_logger log_folder w).1 = Ok lg → lg = "AppLogger").
Proof.
  cbv zeta. rewrite setup_logger_eq.
  destruct (ensure_dir log_folder (fs w)) as [[e|] f1].
  { split; [|done]. exists []. by rewrite app_nil_r; auto. }
  cbv zeta.
  destruct (has_handlers w (logger_of "AppLogger" w)) eqn:Hconf.
  { cbn [fst snd]. rewrite logger_of_assembled. cbn [l_handlers l_level].
    split; [exists []; by rewrite app_nil_r; auto|].
    split; [|by intros lg [= <-]].
    intros _. split; [|done].
    by rewrite (has_handlers_assembled f1 (logger_of "AppLogger" w) w). }
  destruct (has_handlers_false _ _ Hconf) as [Hnone _].
  destruct (open_append _ f1) as [[e|] f2]; cbn [fst snd];
    rewrite logger_of_assembled; cbn [l_handlers l_level]; rewrite Hnone.
  - split; [|done]. exists [console_sink]. auto.
  - split; [exists [console_sink; file_sink log_folder]; auto|].
    split; [done | by intros lg [= <-]].
Qed.

(** X6. A log file that cannot be opened leaves a logger without its file
    sink for good. When the first set-up fails at opening the file, the
    exception goes to the caller, but the console sink is already attached
    and the threshold set; every later call whose directory step succeeds
    then finds the logger configured and returns it with the console sink
    alone, without trying the file again. *)
Theorem setup_logger_open_failure (log_folder : string) (w : world) (e : exn)
    (f1 f2 : filesystem) :
  has_handlers w (logger_of "AppLogger" w) = false →
  ensure_dir log_folder (fs w) = (None, f1) →
  open_append (os_path_join log_folder "log.txt") f1 = (Some e, f2) →
  ∃ w1, setup_logger log_folder w = (Raise e, w1) ∧
    fs w1 = f2 ∧
    l_handlers (logger_of "AppLogger" w1) = [console_sink] ∧
    l_level (logger_of "AppLogger" w1) = DEBUG ∧
    ∀ (again : string) (f : filesystem),
      ensure_dir again (fs w1) = (None, f) →
      ∃ w2, setup_logger again w1 = (Ok "AppLogger", w2) ∧
        fs w2 = f ∧
        l_handlers (logger_of "AppLogger" w2) = [console_sink].
Proof.
  intros Hfresh Hdir Hopen. eexists. split.
  { rewrite setup_logger_eq, Hdir. cbv zeta. by rewrite Hfresh, Hopen. }
  rewrite logger_of_assembled. do 3 (split; [done|]).
  intros again f Hagain. eexists. split.
  { rewrite setup_logger_eq, Hagain. cbv zeta.
    rewrite logger_of_assembled. by cbn [has_handlers l_handlers]. }
  by rewrite !logger_of_assembled.
Qed.

(** X7. A configured root logger keeps [setup_logger] from attaching
    anything. When the root logger has a handler and the application logger
    propagates to it, the very first call finds handlers in reach: it
    returns the logger with the handlers it had, none if it had none, and
    the log file is not opened. *)
Theorem setup_logger_root_configured (log_folder : string) (w : world) (f : filesystem) :
  l_handlers (root w) ≠ [] →
  l_propagate (logger_of "AppLogger" w) = true →
  ensure_dir log_folder (fs w) = (None, f) →
  ∃ w', setup_logger log_folder w = (Ok "AppLogger", w') ∧
    fs w' = f ∧
    l_handlers (logger_of "AppLogger" w') = l_handlers (logger_of "AppLogger" w) ∧
    l_level (logger_of "AppLogger" w') = DEBUG ∧
    ∀ record : LogRecord,
      l_handlers (logger_of "AppLogger" w) = [] → levelno record >= DEBUG →
      Logger_handle "AppLogger" record w' =
        handle_all (l_handlers (root w)) record w'.
Proof.
  intros Hroot Hprop Hdir.
  assert (has_handlers w (logger_of "AppLogger" w) = true) as Hconf.
  { unfold has_handlers. rewrite Hprop.
    destruct (l_handlers (logger_of "AppLogger" w)); [|done].
    by destruct (l_handlers (root w)). }
  eexists. split.
  { rewrite setup_logger_eq, Hdir. cbv zeta. by rewrite Hconf. }
  rewrite logger_of_assembled. do 3 (split; [done|]).
  intros record Hnone Hlevel.
  unfold Logger_handle, getEffectiveLevel, callHandlers.
  rewrite logger_of_assembled. cbn [l_level l_handlers l_propagate].
  rewrite (bool_decide_eq_false_2 (DEBUG = NOTSET)) by done.
  rewrite bool_decide_eq_true_2 by done.
  by rewrite Hnone, Hprop.
Qed.

End SetupMore.

(** ** The script *)

Section ScriptFacts.
Context {platform : Platform}.

Lemma append_output_app (a b : list (stream * string)) (w : world) :
  append_output b (append_output a w) = append_output (a ++ b) w.
Proof. unfold append_output. cbn [fs root loggerDict output]. by rewrite app_assoc. Qed.

(** A record of level INFO or above goes to both sinks, the console first. *)
Lemma handle_both_sinks (name log_folder : string) (w : world) (record : LogRecord)
    (ct : struct_time) (m : string) :
  l_level (logger_of name w) = DEBUG →
  l_handlers (logger_of name w) = [console_sink; file_sink log_folder] →
  (l_propagate (logger_of name w) = true → l_handlers (root w) = []) →
  local_time record ct → getMessage record = Ok m → levelno record >= INFO →
  Logger_handle name record w = append_output (both_lines log_folder record ct m) w.
Proof.
  intros Hlevel Hhs Hroot Hct Hm Hinfo.
  unfold Logger_handle, getEffectiveLevel. rewrite Hlevel.
  rewrite (bool_decide_eq_false_2 (DEBUG = NOTSET)) by done.
  rewrite bool_decide_eq_true_2 by (unfold DEBUG, INFO in *; lia).
  unfold callHandlers. rewrite Hhs.
  assert (handle_all [console_sink; file_sink log_folder] record w =
          append_output (both_lines log_folder record ct m) w) as Hown.
  { unfold handle_all. cbn [fold_left].
    change (h_level console_sink) with INFO. change (h_level (file_sink log_folder)) with DEBUG.
    rewrite (bool_decide_eq_true_2 (levelno record >= DEBUG))
      by (unfold DEBUG, INFO in *; lia).
    rewrite (bool_decide_eq_true_2 (levelno record >= INFO)) by done.
    rewrite (emit_ok (file_sink log_folder) (MyFormatter_init false) record _ _
               eq_refl (format_plain_ok _ _ _ Hct Hm)).
    rewrite (emit_ok console_sink (MyFormatter_init true) record _ _
               eq_refl (format_color_ok _ _ _ Hct Hm)).
    unfold write, append_output, both_lines. cbn [fs root loggerDict output].
    by rewrite <- app_assoc. }
  rewrite Hown.
  destruct (l_propagate (logger_of name w)); [|done].
  by rewrite Hroot.
Qed.

(** X8. The script from end to end. Run where the application logger has no
    handler in reach, the directory [logs] is there or can be made and
    [logs/log.txt] can be opened, the script returns normally and leaves
    exactly eight pieces of output: for each of its four emissions, in
    order INFO, WARNING, ERROR, INFO, the coloured line on the console and
    then the plain line in the file. The division by zero is caught, and its
    message ends the ERROR line. *)
Theorem main_writes_four_records (file : string) (t1 t2 t3 t4 : instant)
    (ct1 ct2 ct3 ct4 : struct_time) (w : world) (f1 f2 : filesystem) :
  has_handlers w (logger_of "AppLogger" w) = false →
  ensure_dir "logs" (fs w) = (None, f1) →
  open_append "logs/log.txt" f1 = (None, f2) →
  clock_reads t1 ct1 → clock_reads t2 ct2 → clock_reads t3 ct3 → clock_reads t4 ct4 →
  main file t1 t2 t3 t4 w =
  (Ok (),
   append_output
     (both_lines "logs" (record_of INFO "Process started." file 104 t1) ct1
        "Process started." ++
      both_lines "logs" (record_of WARNING "Configuration file not found." file 107 t2) ct2
        "Configuration file not found." ++
      both_lines "logs"
        (record_of ERROR "Calculation failed: division by zero" file 112 t3) ct3
        "Calculation failed: division by zero" ++
      both_lines "logs" (record_of INFO "Task finished." file 114 t4) ct4
        "Task finished.")
     (assembled f2 [console_sink; file_sink "logs"] w)) ∧
  levelname (record_of INFO "Process started." file 104 t1) = "INFO" ∧
  levelname (record_of WARNING "Configuration file not found." file 107 t2) = "WARNING" ∧
  levelname (record_of ERROR "Calculation failed: division by zero" file 112 t3) = "ERROR".
Proof.
  intros Hfresh Hdir Hopen H1 H2 H3 H4.
  destruct (has_handlers_false _ _ Hfresh) as [Hnone Hroot].
  split; [|done].
  unfold main. rewrite bind_run, setup_logger_eq, Hdir. cbv zeta.
  rewrite Hfresh. change (os_path_join "logs" "log.txt") with "logs/log.txt".
  rewrite Hopen.
  set (w0 := assembled f2 [console_sink; file_sink "logs"] w).
  assert (∀ ls, l_level (logger_of "AppLogger" (append_output ls w0)) = DEBUG ∧
    l_handlers (logger_of "AppLogger" (append_output ls w0)) =
      [console_sink; file_sink "logs"] ∧
    (l_propagate (logger_of "AppLogger" (append_output ls w0)) = true →
     l_handlers (root (append_output ls w0)) = [])) as Hinv.
  { intros ls. change (logger_of "AppLogger" (append_output ls w0))
      with (logger_of "AppLogger" w0).
    unfold w0. rewrite logger_of_assembled. done. }
  assert (∀ level message line now ct ls,
    clock_reads now ct → level >= INFO →
    Logger_handle "AppLogger"
      {| created := now; levelno := level; levelname := getLevelName level;
         pathname := file; lineno := line; msg := PyStr message; args := [] |}
      (append_output ls w0) =
    append_output (ls ++ both_lines "logs" (record_of level message file line now) ct message)
      w0) as Hstep.
  { intros level message line now ct ls Hct Hlevel.
    destruct (Hinv ls) as (Hl & Hh & Hr).
    rewrite (handle_both_sinks "AppLogger" "logs" _ _ ct message Hl Hh Hr); try done.
    apply append_output_app. }
  rewrite bind_run. unfold Logger_info at 1, Logger_log at 1.
  rewrite (handle_both_sinks "AppLogger" "logs" w0 _ ct1 "Process started.")
    by (done || (unfold w0; by rewrite logger_of_assembled)).
  rewrite bind_run. unfold Logger_warning, Logger_log at 1.
  rewrite (Hstep WARNING "Configuration file not found." 107 t2 ct2 _ H2)
    by (unfold WARNING, INFO; lia).
  rewrite bind_run. cbn [truediv bool_decide decide_rel]. unfold Logger_error, Logger_log at 1.
  change (truediv 100 0) with (ZeroDivisionError "division by zero"). cbv beta iota.
  rewrite (Hstep ERROR "Calculation failed: division by zero" 112 t3 ct3 _ H3)
    by (unfold ERROR, INFO; lia).
  unfold Logger_info, Logger_log.
  rewrite (Hstep INFO "Task finished." 114 t4 ct4 _ H4) by done.
  cbn [app]. by rewrite <- !app_assoc.
Qed.

(** X9. The script stops at a failed set-up. When [setup_logger] raises, the
    script raises the same exception at once: none of its four emissions
    takes place and nothing is written to any stream. *)
Theorem main_stops_at_failed_setup (file : string) (t1 t2 t3 t4 : instant)
    (w w1 : world) (e : exn) :
  setup_logger "logs" w = (Raise e, w1) →
  main file t1 t2 t3 t4 w = (Raise e, w1) ∧ output w1 = output w.
Proof.
  intros Hsetup. split.
  - unfold main. by rewrite bind_run, Hsetup.
  - pose proof (setup_logger_eq "logs" w) as Heq. rewrite Hsetup in Heq.
    destruct (ensure_dir "logs" (fs w)) as [[e'|] f1]; [by injection Heq as -> ->|].
    cbv zeta in Heq.
    destruct (has_handlers w (logger_of "AppLogger" w)); [done|].
    destruct (open_append _ f1) as [[e'|] f2]; [by injection Heq as -> ->|done].
Qed.

End ScriptFacts.

(** ** The further properties at work on the reference platform *)

Section MoreInstances.
Import Reference.

Lemma location_offset_any_level_witness :
  let record := job_record 100 "Level 100" (PyStr "custom level") [] in
  ∃ plain colored : string,
    format (MyFormatter_init false) record = Ok plain ∧
    format (MyFormatter_init true) record = Ok colored ∧
    field_at 22 (level_str record) plain = true ∧
    field_at 34 (loc_str record) plain = true ∧
    field_at 58 (BLUE +:+ loc_str record +:+ RESET) colored = true ∧
    field_at 0 (levelname record) (level_str record) = true.
Proof.
  apply (location_offset_any_level (job_record 100 "Level 100" (PyStr "custom level") [])
           {| tm_year := 1970; tm_mon := 1; tm_mday := 1;
              tm_hour := 0; tm_min := 0; tm_sec := 0 |} "custom level").
  - split; reflexivity.
  - simpl. lia.
  - reflexivity.
Defined.

Lemma strip_colors_gives_plain_witness :
  ∃ plain colored : string,
    format (MyFormatter_init false) warning_record = Ok plain ∧
    format (MyFormatter_init true) warning_record = Ok colored ∧
    strip_colors colored = plain ∧
    strip_colors plain = plain ∧
    String.length colored = (String.length plain + 48)%nat.
Proof.
  apply (strip_colors_gives_plain warning_record stamp "Configuration file not found.").
  - split; reflexivity.
  - reflexivity.
  - reflexivity.
  - reflexivity.
  - reflexivity.
Defined.

Lemma format_failure_witness :
  format (MyFormatter_init true) (job_record INFO "INFO" (PyStr "%d items") [PyStr "three"])
  = Raise TypeError.
Proof.
  apply (proj1 (proj2 (format_failure
           (job_record INFO "INFO" (PyStr "%d items") [PyStr "three"])))).
  reflexivity.
Defined.

Lemma setup_logger_frame_witness :
  output (setup_logger "logs" fresh).2 = [] ∧
  loggerDict (setup_logger "logs" fresh).2 !! "urllib3" = None.
Proof.
  destruct (setup_logger_frame "logs" fresh) as (Hout & _ & _ & Hothers).
  split; [exact Hout|]. by rewrite (Hothers "urllib3").
Defined.

Lemma setup_logger_handlers_grow_witness :
  has_handlers (setup_logger "logs" fresh).2
    (logger_of "AppLogger" (setup_logger "logs" fresh).2) = true.
Proof.
  apply (proj1 (proj2 (setup_logger_handlers_grow "logs" fresh))).
  reflexivity.
Defined.

Lemma setup_logger_open_failure_witness :
  let locked : @filesystem platform :=
    {| dirs := {["logs"]}; files := ∅; unwritable := {["logs/log.txt"]} |} in
  let w := {| fs := locked; root := root fresh; loggerDict := ∅; output := [] |} in
  ∃ w1, setup_logger "logs" w = (Raise (OSError "EACCES"), w1) ∧
        l_handlers (logger_of "AppLogger" w1) = [console_sink].
Proof.
  cbv zeta.
  destruct (setup_logger_open_failure "logs"
    {| fs := ({| dirs := {["logs"]}; files := ∅; unwritable := {["logs/log.txt"]} |}
               : @filesystem platform);
       root := root fresh; loggerDict := ∅; output := [] |}
    (OSError "EACCES")
    {| dirs := {["logs"]}; files := ∅; unwritable := {["logs/log.txt"]} |}
    {| dirs := {["logs"]}; files := ∅; unwritable := {["logs/log.txt"]} |})
    as (w1 & Hraise & _ & Hhandlers & _).
  - reflexivity.
  - reflexivity.
  - reflexivity.
  - exists w1. split; [exact Hraise | exact Hhandlers].
Defined.

Lemma setup_logger_root_configured_witness :
  let w := {| fs := fs fresh;
              root := {| l_level := WARNING; l_handlers := [StreamHandler Stdout];
                         l_propagate := true |};
              loggerDict := ∅; output := [] |} in
  ∃ w', setup_logger "logs" w = (Ok "AppLogger", w') ∧
        l_handlers (logger_of "AppLogger" w') = [].
Proof.
  cbv zeta.
  destruct (setup_logger_root_configured "logs"
    {| fs := fs fresh;
       root := {| l_level := WARNING; l_handlers := [StreamHandler Stdout];
                  l_propagate := true |};
       loggerDict := ∅; output := [] |}
    {| dirs := {["logs"]}; files := ∅; unwritable := {["/proc/logs"]} |})
    as (w' & Hsetup & _ & Hhandlers & _).
  - done.
  - reflexivity.
  - reflexivity.
  - exists w'. split; [exact Hsetup | exact Hhandlers].
Defined.

Lemma main_writes_four_records_witness :
  (main "/srv/app/main.py" 0 60 120 180 fresh).1 = Ok () ∧
  length (output (main "/srv/app/main.py" 0 60 120 180 fresh).2) = 8%nat.
Proof.
  destruct (main_writes_four_records (platform := platform) "/srv/app/main.py" 0 60 120 180
    {| tm_year := 1970; tm_mon := 1; tm_mday := 1; tm_hour := 0; tm_min := 0; tm_sec := 0 |}
    {| tm_year := 1970; tm_mon := 1; tm_mday := 1; tm_hour := 0; tm_min := 1; tm_sec := 0 |}
    {| tm_year := 1970; tm_mon := 1; tm_mday := 1; tm_hour := 0; tm_min := 2; tm_sec := 0 |}
    {| tm_year := 1970; tm_mon := 1; tm_mday := 1; tm_hour := 0; tm_min := 3; tm_sec := 0 |}
    fresh
    {| dirs := {["logs"]}; files := ∅; unwritable := {["/proc/logs"]} |}
    with_logs) as [Hmain _].
  - reflexivity.
  - reflexivity.
  - reflexivity.
  - split; reflexivity.
  - split; reflexivity.
  - split; reflexivity.
  - split; reflexivity.
  - rewrite Hmain. split; reflexivity.
Defined.

Lemma main_stops_at_failed_setup_witness :
  let w := {| fs := ({| dirs := ∅; files := ∅; unwritable := {["logs"]} |}
                      : @filesystem platform);
              root := root fresh; loggerDict := ∅; output := [] |} in
  main (platform := platform) "/srv/app/main.py" 0 60 120 180 w =
  (Raise (OSError "EACCES"), w).
Proof.
  cbv zeta.
  apply (main_stops_at_failed_setup (platform := platform) "/srv/app/main.py" 0 60 120 180).
  reflexivity.
Defined.

End MoreInstances.
